(** * Account move import: pivot normalisation, resolution, splitting and
      reconciliation

    A shallow embedding of [account_move_csv_import/wizard/account_move_import.py]
    and of the properties its specification states about it.

    Conventions of the embedding:
    - a pivot line is a Python [dict] from field names to dynamically typed
      values: a [gmap string pyval];
    - a Python float is a [pyfloat]: a finite value, an infinity or NaN; the
      finite values are exact rationals ([Q]), so rounding and overflow are
      not modelled, and the sums of the move splitter and of the reconciler
      are exact sums of finite amounts;
    - a Python exception is a [Raise] result; the functions that mutate their
      argument in place return the mutated value instead;
    - what the code gets from Odoo or from the Python library (the currency
      comparator [is_zero], [float()], [strptime]) is a method of the class
      [Host]; the development holds for every instance of it. *)

From Stdlib Require Import ZArith QArith Qabs String Ascii List Bool Lia.
From stdpp Require Import base option list gmap strings fin_maps.

Close Scope Q_scope.
Open Scope Z_scope.

(** ** Python values *)

(** [datetime.date] and [datetime.datetime] objects.  A [date] never compares
    equal to a [datetime]. *)
Inductive pydate :=
| PyDate (year month day : Z)
| PyDatetime (year month day : Z) (microsecond : Z).

(** A Python [float]. *)
Inductive pyfloat :=
| Finite (x : Q)
| Inf (negative : bool)
| NaN.

(** [VDist] is the dict [analytic_distribution], from the id of an analytic
    account to a percentage, as the list of its items in insertion order.
    A percentage is held as a float: the ints [100] and [1] of the code as
    the floats they are equal to. *)
Inductive pyval :=
| VNone
| VBool (b : bool)
| VInt (n : Z)
| VFloat (x : pyfloat)
| VStr (s : string)
| VDate (d : pydate)
| VDist (d : list (positive * pyfloat)).

#[global] Instance pydate_eq_dec : EqDecision pydate.
Proof. solve_decision. Defined.

#[global] Instance Q_eq_dec : EqDecision Q.
Proof. solve_decision. Defined.

#[global] Instance pyfloat_eq_dec : EqDecision pyfloat.
Proof. solve_decision. Defined.

(** [x == y], [x < y] and [x > y] on floats: every comparison with NaN is
    false. *)
Definition float_eq (x y : pyfloat) : bool :=
  match x, y with
  | Finite a, Finite b => Qeq_bool a b
  | Inf s, Inf t => Bool.eqb s t
  | _, _ => false
  end.

Definition float_lt (x y : pyfloat) : bool :=
  match x, y with
  | Finite a, Finite b => negb (Qle_bool b a)
  | Finite _, Inf negative => negb negative
  | Inf negative, Finite _ => negative
  | Inf s, Inf t => s && negb t
  | _, _ => false
  end.

Definition float_gt (x y : pyfloat) : bool := float_lt y x.

#[global] Instance pyval_eq_dec : EqDecision pyval.
Proof. solve_decision. Defined.

(** Python truth value of an object ([if value:]). *)
Definition truthy (v : pyval) : bool :=
  match v with
  | VNone => false
  | VBool b => b
  | VInt n => negb (n =? 0)
  | VFloat (Finite x) => negb (Qnum x =? 0)
  | VFloat _ => true
  | VStr s => negb (String.eqb s "")
  | VDate _ => true
  | VDist d => match d with [] => false | _ => true end
  end.

(** [isinstance(v, (float, int))], with the value as a float: [bool] is a
    subclass of [int]. *)
Definition as_float (v : pyval) : option pyfloat :=
  match v with
  | VBool b => Some (Finite (if b then 1%Q else 0%Q))
  | VInt n => Some (Finite (inject_Z n))
  | VFloat x => Some x
  | _ => None
  end.

(** The value of a finite number. *)
Definition as_num (v : pyval) : option Q :=
  match as_float v with
  | Some (Finite x) => Some x
  | _ => None
  end.

(** [isinstance(v, int)]. *)
Definition as_int (v : pyval) : option Z :=
  match v with
  | VBool b => Some (if b then 1 else 0)
  | VInt n => Some n
  | _ => None
  end.

(** Python [==] between two values. *)
Definition py_eq (a b : pyval) : bool :=
  match as_float a, as_float b with
  | Some x, Some y => float_eq x y
  | None, None =>
      match a, b with
      | VNone, VNone => true
      | VStr s, VStr t => String.eqb s t
      | VDate d, VDate e => bool_decide (d = e)
      | VDist d, VDist e =>
          bool_decide (length d = length e) &&
          forallb (fun kv => existsb (fun kv' =>
            Pos.eqb kv.1 kv'.1 && float_eq kv.2 kv'.2) e) d
      | _, _ => false
      end
  | _, _ => false
  end.

(** ** Strings *)

Module PyStr.

(** [str.isspace] on the ASCII range. *)
Definition isspace (c : ascii) : bool :=
  match c with
  | "009" | "010" | "011" | "012" | "013"
  | "028" | "029" | "030" | "031" | " " => true
  | _ => false
  end%char.

Abbreviation chars := list_ascii_of_string.
Abbreviation of_chars := string_of_list_ascii.

Fixpoint lstrip_l (l : list ascii) : list ascii :=
  match l with
  | c :: l' => if isspace c then lstrip_l l' else l
  | [] => []
  end.

Definition rstrip_l (l : list ascii) : list ascii :=
  rev (lstrip_l (rev l)).

Definition strip_l (l : list ascii) : list ascii := rstrip_l (lstrip_l l).

(** [s.strip()] *)
Definition strip (s : string) : string := of_chars (strip_l (chars s)).

(** [s.split(sep)] for a one-character separator. *)
Fixpoint split_l (sep : ascii) (cur : list ascii) (l : list ascii)
  : list (list ascii) :=
  match l with
  | [] => [rev cur]
  | c :: l' =>
      if Ascii.eqb c sep then rev cur :: split_l sep [] l'
      else split_l sep (c :: cur) l'
  end.

Definition split (sep : ascii) (s : string) : list string :=
  of_chars <$> split_l sep [] (chars s).

(** [sep.join(parts)] *)
Fixpoint join (sep : string) (parts : list string) : string :=
  match parts with
  | [] => ""
  | [p] => p
  | p :: ps => p +:+ sep +:+ join sep ps
  end.

(** [s.replace(',', '.')] *)
Definition replace_char (a b : ascii) (s : string) : string :=
  of_chars ((fun c => if Ascii.eqb c a then b else c) <$> chars s).

(** [code.startswith(p)] *)
Definition startswith (code p : string) : bool := String.prefix p code.

End PyStr.

Arguments PyStr.strip : simpl never.
Arguments PyStr.split : simpl never.
Arguments PyStr.join : simpl never.
Arguments PyStr.replace_char : simpl never.
Arguments PyStr.startswith : simpl never.

(** ** Exceptions, log records and results *)

(** The messages appended to [errors['other']]. *)
Inductive other_error :=
| WrongPctNotNumber (lineno : Z) (pct : string)
| WrongPctRange (lineno : Z) (pct : string)
| MissingDate (lineno : Z)
| BadDateFormat (lineno : Z) (v : pyval)
| BadCredit (lineno : Z) (v : pyval)
| BadDebit (lineno : Z) (v : pyval)
| MissingMoveName (lineno : Z).

(** One bucket of [errors]: a dict from the offending code to the list of
    line numbers, as the list of its items in insertion order. *)
Abbreviation bucket := (list (pyval * list Z)).

(** [errors = {'other': [], 'journal': {}, 'account': {}, 'partner': {},
    'analytic': {}}] *)
Record errors := mk_errors {
  err_other : list other_error;
  err_journal : bucket;
  err_account : bucket;
  err_partner : bucket;
  err_analytic : bucket;
}.

(** The values [_prepare_move_line] builds for one journal item. *)
Record move_line := mk_move_line {
  ml_credit : pyval;
  ml_debit : pyval;
  ml_name : pyval;
  ml_partner_id : pyval;
  ml_account_id : pyval;
  ml_analytic_distribution : pyval;
  ml_import_reconcile : pyval;
  ml_import_external_id : pyval * pyval;
}.

(** The texts of the [UserError]s of the import. *)
Inductive user_msg :=
| ErrorList (e : errors)
| OnlyOneLine (lineno : pyval) (debug : list move_line)
| NotBalanced (balance : Q)
| WrongSplitMethod.

(** The exceptions of the import.  [NonFiniteAmount] is not one of Python:
    the sums of the move splitter are modelled on finite amounts, and the
    embedding stops with it where the code goes on computing with NaN or an
    infinity. *)
Inductive exn :=
| UserError (msg : user_msg)
| KeyError (key : string)
| TypeError
| ValueError
| AttributeError
| IndexError
| AssertionError
| NonFiniteAmount.

Inductive res (A : Type) :=
| Ok (a : A)
| Raise (e : exn).
Arguments Ok {A} a.
Arguments Raise {A} e.

#[global] Instance res_ret : MRet res := fun A a => Ok a.
#[global] Instance res_bind : MBind res := fun A B f m =>
  match m with
  | Ok a => f a
  | Raise e => Raise e
  end.

Fixpoint mapM {A B} (f : A -> res B) (l : list A) : res (list B) :=
  match l with
  | [] => Ok []
  | a :: l' => b ← f a; bs ← mapM f l'; Ok (b :: bs)
  end.

Fixpoint foldM {A S} (f : S -> A -> res S) (s : S) (l : list A) : res S :=
  match l with
  | [] => Ok s
  | a :: l' => s' ← f s a; foldM f s' l'
  end.

Inductive log_record :=
| WarnApproximateMatch (import_code : pyval) (odoo_code : string)
| InfoSkipNullLine (lineno : pyval)
| WarnOnlyOneMoveLine (rec_ref : string)
| WarnNotBalanced (rec_ref : string) (total : Q)
| WarnDifferentAccounts (rec_ref : string) (codes : string)
| WarnNotReconcilable (rec_ref : string) (display_name : string)
| WarnDifferentPartners (rec_ref : string) (ids : string).

(** ** Pivot lines *)

Abbreviation line := (gmap string pyval).

(** [l[key]] *)
Definition getitem (l : line) (key : string) : res pyval :=
  match l !! key with
  | Some v => Ok v
  | None => Raise (KeyError key)
  end.

(** [l.get(key)] *)
Definition get (l : line) (key : string) : pyval := default VNone (l !! key).

(** ** The wizard *)

Inductive split_method := SplitBalanced | SplitMoveName | SplitOther.

(** The fields of [account.move.import] the pipeline reads.  A [Char] or
    [Date] field holds a value or [False] ([None] here); [force_journal_id]
    holds the code of the forced journal. *)
Record wizard := mk_wizard {
  force_journal_id : option string;
  force_move_ref : option string;
  force_move_line_name : option string;
  force_move_date : option (Z * Z * Z);
  file_with_header : bool;
  date_by_move_line : bool;
  skip_null_lines : bool;
  keep_odoo_move_name : bool;
  split_move_method : split_method;
}.

Definition char_val (c : option string) : pyval :=
  match c with
  | Some s => VStr s
  | None => VBool false
  end.

Definition date_val (d : option (Z * Z * Z)) : pyval :=
  match d with
  | Some (y, m, d) => VDate (PyDate y m d)
  | None => VBool false
  end.

(** ** Normalizer *)

Definition clean_value (value : pyval) : pyval :=
  if truthy value then
    match value with
    | VStr s =>
        let s' := PyStr.strip s in
        if truthy (VStr s') then VStr s' else VBool false
    | _ => value
    end
  else VBool false.

Definition clean_strip_pivot (pivot : list line) : list line :=
  (fun l : line => clean_value <$> l) <$> pivot.

(** [if force: l[key] = force] *)
Definition force_field (key : string) (force : pyval) (l : line) : line :=
  if truthy force then <[key := force]> l else l.

(** [if not l[key]: l[key] = 0.0] *)
Definition default_zero (key : string) (l : line) : res line :=
  v ← getitem l key;
  Ok (if negb (truthy v) then <[key := VFloat (Finite 0)]> l else l).

Definition update_line (self : wizard) (l : line) : res line :=
  let force_move_date := date_val (force_move_date self) in
  let force_move_ref := char_val (force_move_ref self) in
  let force_move_line_name := char_val (force_move_line_name self) in
  let force_journal_code :=
    match force_journal_id self with
    | Some code => if truthy (VStr code) then VStr code else VBool false
    | None => VBool false
    end in
  let l := force_field "date" force_move_date l in
  let l := force_field "name" force_move_line_name l in
  let l := force_field "ref" force_move_ref l in
  let l := force_field "journal" force_journal_code l in
  l ← default_zero "credit" l;
  default_zero "debit" l.

Definition update_pivot (self : wizard) (pivot : list line) : res (list line) :=
  mapM (update_line self) pivot.

(** [clean_strip_pivot] then [update_pivot], as [run_import] calls them. *)
Definition normalizer (self : wizard) (pivot : list line) : res (list line) :=
  update_pivot self (clean_strip_pivot pivot).

(** ** The host: Odoo and the Python library *)

Class Host := {
  (** [self.company_id.currency_id.is_zero(amount)] *)
  is_zero : Q -> bool;
  (** [float(s)]; [None] when it raises [ValueError] *)
  py_float : string -> option pyfloat;
  (** [datetime.strptime(s, fmt)] as (year, month, day); [None] when it
      raises [ValueError] *)
  strptime : string -> string -> option (Z * Z * Z);
}.

(** ** Directory resolver *)

(** A speeddict entry: a dict from upper-cased codes to database ids, as the
    list of its items in iteration order.  Database ids are positive. *)
Abbreviation directory := (list (string * positive)).

Record speeddict := mk_speeddict {
  sd_partner : directory;
  sd_journal : directory;
  sd_account : directory;
  sd_analytic : directory;
}.

(** [d[code]] for a [str] key, [None] when [code not in d] *)
Fixpoint assoc {V} (code : string) (d : list (string * V)) : option V :=
  match d with
  | [] => None
  | (c, v) :: d' => if String.eqb c code then Some v else assoc code d'
  end.

(** [key in d] and [d[key]] for any key: only a [str] can be a key of a
    speeddict, and a dict is not hashable. *)
Definition lookup_code (d : directory) (key : pyval) : res (option positive) :=
  match key with
  | VStr s => Ok (assoc s d)
  | VDist _ => Raise TypeError
  | _ => Ok None
  end.

Definition id_val (id : positive) : pyval := VInt (Z.pos id).

(** State of the MATCHES + CHECKS loop: the [errors] dict and the log. *)
Record rstate := mk_rstate {
  errs : errors;
  rlog : list log_record;
}.

Definition no_errors : errors := mk_errors [] [] [] [] [].

(** [errors[key].setdefault(code, []).append(lineno)] *)
Fixpoint bucket_add (code : pyval) (lineno : Z) (b : bucket) : bucket :=
  match b with
  | [] => [(code, [lineno])]
  | (c, ns) :: b' =>
      if py_eq c code then (c, ns ++ [lineno]) :: b'
      else (c, ns) :: bucket_add code lineno b'
  end.

Definition add_other (e : other_error) (s : rstate) : rstate :=
  let er := errs s in
  mk_rstate (mk_errors (err_other er ++ [e]) (err_journal er) (err_account er)
               (err_partner er) (err_analytic er)) (rlog s).

Definition add_journal_error (code : pyval) (n : Z) (s : rstate) : rstate :=
  let er := errs s in
  mk_rstate (mk_errors (err_other er) (bucket_add code n (err_journal er))
               (err_account er) (err_partner er) (err_analytic er)) (rlog s).

Definition add_account_error (code : pyval) (n : Z) (s : rstate) : rstate :=
  let er := errs s in
  mk_rstate (mk_errors (err_other er) (err_journal er)
               (bucket_add code n (err_account er))
               (err_partner er) (err_analytic er)) (rlog s).

Definition add_partner_error (code : pyval) (n : Z) (s : rstate) : rstate :=
  let er := errs s in
  mk_rstate (mk_errors (err_other er) (err_journal er) (err_account er)
               (bucket_add code n (err_partner er)) (err_analytic er)) (rlog s).

Definition add_analytic_error (code : pyval) (n : Z) (s : rstate) : rstate :=
  let er := errs s in
  mk_rstate (mk_errors (err_other er) (err_journal er) (err_account er)
               (err_partner er) (bucket_add code n (err_analytic er))) (rlog s).

Definition add_log (r : log_record) (s : rstate) : rstate :=
  mk_rstate (errs s) (rlog s ++ [r]).

(** [assert l.get('line') and isinstance(l.get('line'), int)] *)
Definition check_line_number (l : line) : res Z :=
  let v := get l "line" in
  match (if truthy v then as_int v else None) with
  | Some n => Ok n
  | None => Raise AssertionError
  end.

(** The loop
    [while acc_code_tmp and acc_code_tmp[-1] == '0': acc_code_tmp = acc_code_tmp[:-1]; ...]
    on the reversed characters of [acc_code_tmp]: the head of [rev_tmp] is
    [acc_code_tmp[-1]] and its tail is [acc_code_tmp[:-1]]. *)
Fixpoint strip_zero_search (accounts : directory) (rev_tmp : list ascii)
  : option positive :=
  match rev_tmp with
  | "0"%char :: rest =>
      let acc_code_tmp := PyStr.of_chars (rev rest) in
      match (if truthy (VStr acc_code_tmp) then assoc acc_code_tmp accounts
             else None) with
      | Some account_id => Some account_id
      | None => strip_zero_search accounts rest
      end
  | _ => None
  end.

Definition truncate_search (accounts : directory) (account : pyval)
  : res (option positive) :=
  if truthy account then
    match account with
    | VStr s => Ok (strip_zero_search accounts (rev (PyStr.chars s)))
    | VDist _ => Raise (KeyError "-1")
    | _ => Raise TypeError
    end
  else Ok None.

(** [for code, account_id in speeddict['account'].items():
       if code.startswith(l['account']): ...; break] *)
Fixpoint prefix_search (items : directory) (account : pyval)
  : res (option (string * positive)) :=
  match items with
  | [] => Ok None
  | (code, account_id) :: rest =>
      match account with
      | VStr p =>
          if PyStr.startswith code p then Ok (Some (code, account_id))
          else prefix_search rest account
      | _ => Raise TypeError
      end
  end.

Definition match_account (sd : speeddict) (n : Z) (l : line) (s : rstate)
  : res (line * rstate) :=
  account ← getitem l "account";
  exact ← lookup_code (sd_account sd) account;
  let l := match exact with
           | Some account_id => <["account_id" := id_val account_id]> l
           | None => l
           end in
  l ← (if negb (truthy (get l "account_id")) then
         r ← truncate_search (sd_account sd) account;
         Ok (match r with
             | Some account_id => <["account_id" := id_val account_id]> l
             | None => l
             end)
       else Ok l);
  '(l, s) ← (if negb (truthy (get l "account_id")) then
         r ← prefix_search (sd_account sd) account;
         Ok (match r with
             | Some (code, account_id) =>
                 (<["account_id" := id_val account_id]> l,
                  add_log (WarnApproximateMatch account code) s)
             | None => (l, s)
             end)
       else Ok (l, s));
  if negb (truthy (get l "account_id")) then
    Ok (l, add_account_error account n s)
  else Ok (l, s).

Definition match_partner (sd : speeddict) (n : Z) (l : line) (s : rstate)
  : res (line * rstate) :=
  let partner := get l "partner" in
  if truthy partner then
    r ← lookup_code (sd_partner sd) partner;
    Ok (match r with
        | Some partner_id => (<["partner_id" := id_val partner_id]> l, s)
        | None => (l, add_partner_error partner n s)
        end)
  else Ok (l, s).

(** [analytic_distribution[id] = pct] *)
Fixpoint dist_set (id : positive) (pct : pyfloat)
    (d : list (positive * pyfloat)) : list (positive * pyfloat) :=
  match d with
  | [] => [(id, pct)]
  | (i, p) :: d' =>
      if Pos.eqb i id then (i, pct) :: d' else (i, p) :: dist_set id pct d'
  end.

Section WithHost.
Context `{Host}.

(** The body of [for ana_entry in l['analytic'].split('|')]. *)
Definition match_ana_entry (sd : speeddict) (n : Z)
    (st : list (positive * pyfloat) * rstate) (ana_entry : string)
  : list (positive * pyfloat) * rstate :=
  let '(dist, s) := st in
  let ana_entry := PyStr.strip ana_entry in
  if truthy (VStr ana_entry) then
    let ana_entry_split := PyStr.split ":" ana_entry in
    let '(ana_account_code, ana_pct, s) :=
      match ana_entry_split with
      | [code] => (PyStr.strip code, Finite 100, s)
      | _ =>
          let ana_account_code :=
            PyStr.strip (PyStr.join ":" (removelast ana_entry_split)) in
          let ana_pct_str := List.last ana_entry_split "" in
          let ana_pct_str_ready := PyStr.replace_char "," "." ana_pct_str in
          let '(ana_pct, s) :=
            match py_float ana_pct_str_ready with
            | Some x => (x, s)
            | None =>
                (Finite 1, add_other (WrongPctNotNumber n ana_pct_str) s)
            end in
          let s :=
            if float_lt ana_pct (Finite 0) || float_gt ana_pct (Finite 100)
            then add_other (WrongPctRange n ana_pct_str) s
            else s in
          (ana_account_code, ana_pct, s)
      end in
    match assoc ana_account_code (sd_analytic sd) with
    | Some analytic_id => (dist_set analytic_id ana_pct dist, s)
    | None => (dist, add_analytic_error (VStr ana_account_code) n s)
    end
  else st.

Definition match_analytic (sd : speeddict) (n : Z) (l : line) (s : rstate)
  : res (line * rstate) :=
  let analytic := get l "analytic" in
  if truthy analytic then
    match analytic with
    | VStr a =>
        let '(dist, s) :=
          fold_left (match_ana_entry sd n) (PyStr.split "|" a) ([], s) in
        Ok (<["analytic_distribution" := VDist dist]> l, s)
    | _ => Raise AttributeError
    end
  else Ok (l, s).

Definition match_journal (sd : speeddict) (n : Z) (l : line) (s : rstate)
  : res (line * rstate) :=
  journal ← getitem l "journal";
  r ← lookup_code (sd_journal sd) journal;
  Ok (match r with
      | Some journal_id => (<["journal_id" := id_val journal_id]> l, s)
      | None => (l, add_journal_error journal n s)
      end).

Definition check_date (n : Z) (l : line) (s : rstate) : line * rstate :=
  let date := get l "date" in
  if negb (truthy date) then (l, add_other (MissingDate n) s)
  else
    match date with
    | VDate _ => (l, s)
    | VStr str =>
        match strptime str "%Y-%m-%d" with
        | Some (y, m, d) => (<["date" := VDate (PyDatetime y m d 0)]> l, s)
        | None => (l, add_other (BadDateFormat n date) s)
        end
    | _ => (l, add_other (BadDateFormat n date) s)
    end.

(** [if not isinstance(l.get(key), (float, int)): errors['other'].append(... % (l['line'], l[key]))] *)
Definition check_amount (key : string) (mk : Z -> pyval -> other_error)
    (n : Z) (l : line) (s : rstate) : res rstate :=
  match as_float (get l key) with
  | Some _ => Ok s
  | None => v ← getitem l key; Ok (add_other (mk n v) s)
  end.

(** The body of the MATCHES + CHECKS loop. *)
Definition match_line (sd : speeddict) (l : line) (s : rstate)
  : res (line * rstate) :=
  n ← check_line_number l;
  '(l, s) ← match_account sd n l s;
  '(l, s) ← match_partner sd n l s;
  '(l, s) ← match_analytic sd n l s;
  '(l, s) ← match_journal sd n l s;
  let '(l, s) := check_date n l s in
  s ← check_amount "credit" BadCredit n l s;
  s ← check_amount "debit" BadDebit n l s;
  Ok (l, s).

Fixpoint match_pivot (sd : speeddict) (pivot : list line) (s : rstate)
  : res (list line * rstate) :=
  match pivot with
  | [] => Ok ([], s)
  | l :: pivot' =>
      '(l', s) ← match_line sd l s;
      '(ls, s) ← match_pivot sd pivot' s;
      Ok (l' :: ls, s)
  end.

(** [if msg:] the message is built from one non-empty fragment per
    non-empty bucket, so it is non-empty exactly when a bucket is. *)
Definition has_errors (e : errors) : bool :=
  match err_journal e, err_account e, err_partner e, err_analytic e,
        err_other e with
  | [], [], [], [], [] => false
  | _, _, _, _, _ => true
  end.

(** ** Move splitter *)

(** The dict [_prepare_move] builds, with its ['line_ids']. *)
Record move := mk_move {
  mv_journal_id : pyval;
  mv_ref : pyval;
  mv_date : pyval;
  mv_name : option pyval;
  line_ids : list move_line;
}.

Definition _prepare_move (self : wizard) (pivot_line : line) : res move :=
  journal_id ← getitem pivot_line "journal_id";
  let ref := get pivot_line "ref" in
  date ← getitem pivot_line "date";
  name ← (if truthy (get pivot_line "move_name") &&
              negb (keep_odoo_move_name self)
           then v ← getitem pivot_line "move_name"; Ok (Some v)
           else Ok None);
  Ok (mk_move journal_id ref date name []).

Definition _prepare_move_line (pivot_line : line) (sequence : pyval)
  : res move_line :=
  credit ← getitem pivot_line "credit";
  debit ← getitem pivot_line "debit";
  name ← getitem pivot_line "name";
  let partner_id := get pivot_line "partner_id" in
  account_id ← getitem pivot_line "account_id";
  Ok (mk_move_line credit debit name partner_id account_id
        (get pivot_line "analytic_distribution")
        (get pivot_line "reconcile_ref")
        (sequence, get pivot_line "line")).

Definition set_line_ids (m : move) (lines : list move_line) : move :=
  mk_move (mv_journal_id m) (mv_ref m) (mv_date m) (mv_name m) lines.

(** The variables of the EXTRACT MOVES loop; [cur_move = {}] is [None]. *)
Record split_state := mk_split_state {
  moves : list move;
  cur_journal_id : pyval;
  cur_move_name : pyval;
  cur_date : pyval;
  cur_balance : Q;
  cur_move : option move;
  split_errors : rstate;
}.

Definition split_init (s : rstate) : split_state :=
  mk_split_state [] (VBool false) (VBool false) (VBool false) 0%Q None s.

(** A numeric operand: [l[key]] where the code computes with it. *)
Definition amount (l : line) (key : string) : res Q :=
  v ← getitem l key;
  match as_float v with
  | Some (Finite x) => Ok x
  | Some _ => Raise NonFiniteAmount
  | None => Raise TypeError
  end.

(** [skip_null_lines and comp_cur.is_zero(l['credit']) and comp_cur.is_zero(l['debit'])] *)
Definition is_null_line (self : wizard) (l : line) : res bool :=
  if skip_null_lines self then
    credit ← amount l "credit";
    if is_zero credit then
      debit ← amount l "debit";
      Ok (is_zero debit)
    else Ok false
  else Ok false.

(** The list [same_move], and the state after the error the move-name
    policy appends for a missing number. *)
Definition same_move_tests (self : wizard) (st : split_state) (l : line)
  : res (list bool * rstate) :=
  let move_name := get l "move_name" in
  match split_move_method self with
  | SplitMoveName =>
      s ← (if negb (truthy move_name) then
             v ← getitem l "line";
             match as_int v with
             | Some n => Ok (add_other (MissingMoveName n) (split_errors st))
             | None => Raise TypeError
             end
           else Ok (split_errors st));
      Ok ([py_eq (cur_move_name st) move_name], s)
  | SplitBalanced =>
      journal_id ← getitem l "journal_id";
      let same_move :=
        [py_eq (cur_journal_id st) journal_id;
         negb (is_zero (cur_balance st))] in
      if negb (date_by_move_line self) then
        date ← getitem l "date";
        Ok (same_move ++ [py_eq (cur_date st) date], split_errors st)
      else Ok (same_move, split_errors st)
  | SplitOther => Raise (UserError WrongSplitMethod)
  end.

(** [all(same_move)] *)
Definition all (bs : list bool) : bool := forallb (fun b => b) bs.

(** The body of the EXTRACT MOVES loop. *)
Definition split_step (self : wizard) (seq : pyval) (st : split_state)
    (l : line) : res split_state :=
  skip ← is_null_line self l;
  if (skip : bool) then
    v ← getitem l "line";
    Ok (mk_split_state (moves st) (cur_journal_id st) (cur_move_name st)
          (cur_date st) (cur_balance st) (cur_move st)
          (add_log (InfoSkipNullLine v) (split_errors st)))
  else
    let move_name := get l "move_name" in
    '(same_move, s) ← same_move_tests self st l;
    st ← (if all same_move then
            match cur_move st with
            | None => Raise (KeyError "line_ids")
            | Some m =>
                ml ← _prepare_move_line l seq;
                Ok (mk_split_state (moves st) (cur_journal_id st)
                      (cur_move_name st) (cur_date st) (cur_balance st)
                      (Some (set_line_ids m (line_ids m ++ [ml]))) s)
            end
          else
            moves' ← match cur_move st with
                      | Some m =>
                          if (length (line_ids m) <=? 1)%nat then
                            v ← getitem l "line";
                            Raise (UserError (OnlyOneLine v (line_ids m)))
                          else Ok (moves st ++ [m])
                      | None => Ok (moves st)
                      end;
            m ← _prepare_move self l;
            ml ← _prepare_move_line l seq;
            date ← getitem l "date";
            journal_id ← getitem l "journal_id";
            Ok (mk_split_state moves' journal_id move_name date 0%Q
                  (Some (set_line_ids m [ml])) s));
    credit ← amount l "credit";
    debit ← amount l "debit";
    Ok (mk_split_state (moves st) (cur_journal_id st) (cur_move_name st)
          (cur_date st) (cur_balance st + (credit - debit))%Q (cur_move st)
          (split_errors st)).

(** EXTRACT MOVES: the loop, then the closing of the last move. *)
Definition extract_moves (self : wizard) (seq : pyval) (pivot : list line)
    (s : rstate) : res (list move) :=
  st ← foldM (split_step self seq) (split_init s) pivot;
  let moves := moves st ++ option_list (cur_move st) in
  if negb (is_zero (cur_balance st)) then
    Raise (UserError (NotBalanced (cur_balance st)))
  else Ok moves.

(** [create_moves_from_pivot], up to the calls of [amo.create]: the result
    [Ok moves] is the list of dicts passed to [amo.create], in that order;
    with [Raise] no move is created. *)
Definition create_moves_from_pivot (self : wizard) (sd : speeddict)
    (seq : pyval) (pivot : list line) : res (list move) :=
  '(pivot, s) ← match_pivot sd pivot (mk_rstate no_errors []);
  if has_errors (errs s) then Raise (UserError (ErrorList (errs s)))
  else extract_moves self seq pivot s.

End WithHost.

(** ** Reconciler *)

(** An [account.account] record and an [account.move.line] record, with the
    fields [reconcile_move_lines] reads.  An empty [partner_id] is [None]. *)
Record account := mk_account {
  acc_id : positive;
  acc_code : string;
  acc_reconcile : bool;
  acc_display_name : string;
}.

Record aml := mk_aml {
  aml_id : positive;
  aml_import_reconcile : string;
  aml_credit : Q;
  aml_debit : Q;
  aml_account_id : account;
  aml_partner_id : option positive;
}.

(** [if ref in torec: torec[ref] |= line else: torec[ref] = line] *)
Fixpoint torec_add (ln : aml) (torec : list (string * list aml))
  : list (string * list aml) :=
  match torec with
  | [] => [(aml_import_reconcile ln, [ln])]
  | (rec_ref, lines) :: torec' =>
      if String.eqb rec_ref (aml_import_reconcile ln)
      then (rec_ref, lines ++ [ln]) :: torec'
      else (rec_ref, lines) :: torec_add ln torec'
  end.

(** [accounts[line.account_id] = True]: the keys, in insertion order. *)
Fixpoint account_keys (seen : list account) (lines : list aml) : list account :=
  match lines with
  | [] => seen
  | ln :: lines' =>
      if existsb (fun a => Pos.eqb (acc_id a) (acc_id (aml_account_id ln))) seen
      then account_keys seen lines'
      else account_keys (seen ++ [aml_account_id ln]) lines'
  end.

(** [partners[line.partner_id.id or False] = True]: the keys. *)
Definition partner_key (ln : aml) : pyval :=
  match aml_partner_id ln with
  | Some id => id_val id
  | None => VBool false
  end.

Fixpoint partner_keys (seen : list pyval) (lines : list aml) : list pyval :=
  match lines with
  | [] => seen
  | ln :: lines' =>
      if existsb (py_eq (partner_key ln)) seen
      then partner_keys seen lines'
      else partner_keys (seen ++ [partner_key ln]) lines'
  end.

(** [sep.join(items)]: every item has to be a [str]. *)
Definition join_vals (sep : string) (items : list pyval) : res string :=
  parts ← mapM (fun v => match v with
                          | VStr s => Ok s
                          | _ => Raise TypeError
                          end) items;
  Ok (PyStr.join sep parts).

Inductive decision :=
| Skip (warning : log_record)
| Link.

Section Reconcile.
Context `{Host}.

(** The body of [for rec_ref, lines_to_rec in torec.items()]. *)
Definition reconcile_group (rec_ref : string) (lines_to_rec : list aml)
  : res decision :=
  if (length lines_to_rec <? 2)%nat then Ok (Skip (WarnOnlyOneMoveLine rec_ref))
  else
    let total :=
      fold_left (fun total ln => (total + aml_credit ln - aml_debit ln)%Q)
        lines_to_rec 0%Q in
    let accounts := account_keys [] lines_to_rec in
    let partners := partner_keys [] lines_to_rec in
    if negb (is_zero total) then Ok (Skip (WarnNotBalanced rec_ref total))
    else if (1 <? length accounts)%nat then
      Ok (Skip (WarnDifferentAccounts rec_ref
                  (PyStr.join ", " (acc_code <$> accounts))))
    else
      match accounts with
      | [] => Raise IndexError
      | acc :: _ =>
          if negb (acc_reconcile acc) then
            Ok (Skip (WarnNotReconcilable rec_ref (acc_display_name acc)))
          else if (1 <? length partners)%nat then
            ids ← join_vals ", " partners;
            Ok (Skip (WarnDifferentPartners rec_ref ids))
          else Ok Link
      end.

(** The recordsets passed to [reconcile()], and the warnings logged. *)
Record rec_state := mk_rec_state {
  linked : list (list aml);
  rec_log : list log_record;
}.

Fixpoint reconcile_groups (torec : list (string * list aml)) (st : rec_state)
  : rec_state * option exn :=
  match torec with
  | [] => (st, None)
  | (rec_ref, lines_to_rec) :: torec' =>
      match reconcile_group rec_ref lines_to_rec with
      | Ok (Skip w) =>
          reconcile_groups torec' (mk_rec_state (linked st) (rec_log st ++ [w]))
      | Ok Link =>
          reconcile_groups torec'
            (mk_rec_state (linked st ++ [lines_to_rec]) (rec_log st))
      | Raise e => (st, Some e)
      end
  end.

(** [reconcile_move_lines] on the lines its search returns: those of the
    created moves that carry an [import_reconcile] mark. *)
Definition reconcile_move_lines (lines : list aml) : rec_state * option exn :=
  let torec := fold_left (fun torec ln => torec_add ln torec) lines [] in
  reconcile_groups torec (mk_rec_state [] []).

End Reconcile.

(** ** Parsers with an unconditional header line *)

(** A row of [csv.DictReader(f, fieldnames=...)]: [l[name]] is the cell under
    that field name, [None] when the row is too short.  The rows are the
    records the reader yields, in order. *)
Fixpoint row_get (fieldnames : list (option string)) (row : list string)
    (name : string) : option string :=
  match fieldnames, row with
  | Some f :: fs, c :: cs =>
      if String.eqb f name then Some c else row_get fs cs name
  | None :: fs, _ :: cs => row_get fs cs name
  | _, _ => None
  end.

Definition str_val (o : option string) : pyval :=
  match o with
  | Some s => VStr s
  | None => VNone
  end.

(** [value or '0'] *)
Definition or_zero (o : option string) : string :=
  match o with
  | Some s => if truthy (VStr s) then s else "0"
  | None => "0"
  end.

Definition fec_fieldnames : list (option string) :=
  [Some "journal"; None; Some "move_name"; Some "date"; Some "account"; None;
   Some "partner_ref"; None; Some "ref"; None; Some "name"; Some "debit";
   Some "credit"; Some "reconcile_ref"; None; None; None; None].

Definition nibelis_fieldnames : list (option string) :=
  [Some "trasha"; Some "trashb"; Some "journal"; Some "trashd"; Some "trashe";
   Some "trashf"; Some "trashg"; Some "date"; Some "trashi"; Some "trashj";
   Some "trashk"; Some "trashl"; Some "trashm"; Some "trashn"; Some "account";
   Some "trashp"; Some "trashq"; Some "amount"; Some "trashs"; Some "sign";
   Some "trashu"; Some "trashv"; Some "name"; Some "trashx"; Some "trashy";
   Some "trashz"; Some "trashaa"; Some "trashab"; Some "trashac";
   Some "trashad"; Some "trashae"; Some "analytic"].

Section Parsers.
Context `{Host}.

(** [float(s.replace(',', '.'))] *)
Definition float_of (s : string) : res pyval :=
  match py_float (PyStr.replace_char "," "." s) with
  | Some x => Ok (VFloat x)
  | None => Raise ValueError
  end.

(** [datetime.strptime(value, fmt)] *)
Definition parse_date (value : option string) (fmt : string) : res pyval :=
  match value with
  | None => Raise TypeError
  | Some s =>
      match strptime s fmt with
      | Some (y, m, d) => Ok (VDate (PyDatetime y m d 0))
      | None => Raise ValueError
      end
  end.

Definition fectxt_vals (i : Z) (row : list string) : res line :=
  let l := row_get fec_fieldnames row in
  let credit := or_zero (l "credit") in
  let debit := or_zero (l "debit") in
  credit ← float_of credit;
  debit ← float_of debit;
  date ← parse_date (l "date") "%Y%m%d";
  Ok (list_to_map
        [("journal", str_val (l "journal"));
         ("move_name", str_val (l "move_name"));
         ("account", str_val (l "account"));
         ("partner", str_val (l "partner_ref"));
         ("credit", credit);
         ("debit", debit);
         ("date", date);
         ("name", str_val (l "name"));
         ("ref", str_val (l "ref"));
         ("reconcile_ref", str_val (l "reconcile_ref"));
         ("line", VInt i)]).

(** [for l in reader: i += 1; if i == 1: continue; ...; res.append(vals)],
    with [i] the value of the counter before the row. *)
Fixpoint fectxt_rows (i : Z) (rows : list (list string)) : res (list line) :=
  match rows with
  | [] => Ok []
  | row :: rows' =>
      let i := i + 1 in
      if i =? 1 then fectxt_rows i rows'
      else
        vals ← fectxt_vals i row;
        res ← fectxt_rows i rows';
        Ok (vals :: res)
  end.

Definition fectxt2pivot (self : wizard) (rows : list (list string))
  : res (list line) :=
  fectxt_rows 0 rows.

(** [sign == letter and amount or False] *)
Definition signed_amount (sign : option string) (letter : string)
    (amount : pyfloat)
  : pyval :=
  if py_eq (str_val sign) (VStr letter) && truthy (VFloat amount)
  then VFloat amount
  else VBool false.

Definition nibelis_vals (i : Z) (row : list string) : res line :=
  let l := row_get nibelis_fieldnames row in
  amount ← match l "amount" with
            | Some s =>
                match py_float (PyStr.replace_char "," "." s) with
                | Some x => Ok x
                | None => Raise ValueError
                end
            | None => Raise AttributeError
            end;
  let credit := signed_amount (l "sign") "C" amount in
  let debit := signed_amount (l "sign") "D" amount in
  date ← parse_date (l "date") "%y%m%d";
  let vals : line :=
    list_to_map
      [("journal", str_val (l "journal"));
       ("account", str_val (l "account"));
       ("credit", credit);
       ("debit", debit);
       ("date", date);
       ("name", str_val (l "name"));
       ("line", VInt i)] in
  Ok (if truthy (str_val (l "analytic"))
      then <["analytic" := str_val (l "analytic")]> vals
      else vals).

Fixpoint nibelis_rows (i : Z) (rows : list (list string)) : res (list line) :=
  match rows with
  | [] => Ok []
  | row :: rows' =>
      let i := i + 1 in
      if i =? 1 then nibelis_rows i rows'
      else
        vals ← nibelis_vals i row;
        res ← nibelis_rows i rows';
        Ok (vals :: res)
  end.

Definition nibelis2pivot (self : wizard) (rows : list (list string))
  : res (list line) :=
  nibelis_rows 0 rows.

End Parsers.

(** ** A reference host

    An instance of [Host] for running the pipeline on concrete files: a
    company currency rounded to 0.01, decimal literals, NaN and the
    infinities for [float()], and
    [strptime] for the numeric directives the import uses. *)
Module Sample.

(** [float_is_zero(x, precision_rounding=0.01)]: [x] rounds to 0. *)
Definition currency_is_zero (x : Q) : bool :=
  negb (Qle_bool (1 # 200) (Qabs x)).

Definition digit (c : ascii) : option Z := Z.of_nat <$> Ascii.is_nat c.

Fixpoint digits_value (acc : Z) (l : list ascii) : option Z :=
  match l with
  | [] => Some acc
  | c :: l' => d ← digit c; digits_value (10 * acc + d) l'
  end.

Definition unsigned_decimal (l : list ascii) : option Q :=
  match PyStr.split_l "." [] l with
  | [ip] =>
      match ip with
      | [] => None
      | _ => v ← digits_value 0 ip; Some (inject_Z v)
      end
  | [ip; fp] =>
      match ip ++ fp with
      | [] => None
      | ds => v ← digits_value 0 ds;
              Some (Qmake v (Z.to_pos (10 ^ Z.of_nat (length fp))))
      end
  | _ => None
  end.

Definition lower (c : ascii) : ascii :=
  let n := nat_of_ascii c in
  if ((65 <=? n) && (n <=? 90))%nat then ascii_of_nat (n + 32) else c.

(** The literals [nan], [inf] and [infinity], in any case. *)
Definition nonfinite (negative : bool) (l : list ascii) : option pyfloat :=
  let word := PyStr.of_chars (lower <$> l) in
  if String.eqb word "nan" then Some NaN
  else if String.eqb word "inf" || String.eqb word "infinity"
  then Some (Inf negative)
  else None.

Definition signed_literal (negative : bool) (l : list ascii)
  : option pyfloat :=
  match nonfinite negative l with
  | Some x => Some x
  | None =>
      x ← unsigned_decimal l; Some (Finite (if negative then Qopp x else x))
  end.

(** [float(s)] on a signed decimal literal, [nan], [inf] or [infinity]. *)
Definition float_of_string (s : string) : option pyfloat :=
  match PyStr.chars (PyStr.strip s) with
  | "-"%char :: l => signed_literal true l
  | "+"%char :: l => signed_literal false l
  | l => signed_literal false l
  end.

Fixpoint take_number (n : nat) (acc : Z) (l : list ascii)
  : option (Z * list ascii) :=
  match n with
  | O => Some (acc, l)
  | S n' =>
      match l with
      | c :: l' => d ← digit c; take_number n' (10 * acc + d) l'
      | [] => None
      end
  end.

Fixpoint scan_date (fmt s : list ascii) (ymd : Z * Z * Z)
  : option (Z * Z * Z) :=
  let '(y, m, d) := ymd in
  match fmt with
  | [] => match s with [] => Some ymd | _ => None end
  | "%"%char :: c :: fmt' =>
      if Ascii.eqb c "Y" then
        '(v, s') ← take_number 4 0 s; scan_date fmt' s' (v, m, d)
      else if Ascii.eqb c "y" then
        '(v, s') ← take_number 2 0 s;
        scan_date fmt' s' (if v <? 69 then 2000 + v else 1900 + v, m, d)
      else if Ascii.eqb c "m" then
        '(v, s') ← take_number 2 0 s; scan_date fmt' s' (y, v, d)
      else if Ascii.eqb c "d" then
        '(v, s') ← take_number 2 0 s; scan_date fmt' s' (y, m, v)
      else None
  | c :: fmt' =>
      match s with
      | c' :: s' => if Ascii.eqb c c' then scan_date fmt' s' ymd else None
      | [] => None
      end
  end.

(** [datetime.strptime(s, fmt)] for two-digit months and days. *)
Definition strptime_digits (s fmt : string) : option (Z * Z * Z) :=
  '(y, m, d) ← scan_date (PyStr.chars fmt) (PyStr.chars s) (1900, 1, 1);
  if (1 <=? m) && (m <=? 12) && (1 <=? d) && (d <=? 31)
  then Some (y, m, d) else None.

#[global] Instance host : Host :=
  {| is_zero := currency_is_zero;
     py_float := float_of_string;
     strptime := strptime_digits |}.

End Sample.

(** ** Specification-level definitions *)

(** What [update_pivot] leaves under [key] in a line that held [o] there:
    the forced value of the field when the wizard has one, [0.0] in place of
    a falsy debit or credit, and the value found otherwise. *)
Definition forced_value (self : wizard) (key : string) : pyval :=
  if decide (key = "date") then date_val (force_move_date self)
  else if decide (key = "name") then char_val (force_move_line_name self)
  else if decide (key = "ref") then char_val (force_move_ref self)
  else if decide (key = "journal") then
    match force_journal_id self with
    | Some code => if truthy (VStr code) then VStr code else VBool false
    | None => VBool false
    end
  else VBool false.

Definition updated_field (self : wizard) (key : string) (o : option pyval)
  : option pyval :=
  if truthy (forced_value self key) then Some (forced_value self key)
  else if decide (key = "credit" \/ key = "debit") then
    (fun v => if truthy v then v else VFloat (Finite 0)) <$> o
  else o.

(** ** Example data

    A small company directory and a few pivot lines, used to run the
    pipeline on concrete inputs. *)
Module Examples.

Definition sd : speeddict :=
  mk_speeddict
    [("R12", 7%positive); ("R13", 8%positive)]
    [("VT", 1%positive); ("BQ", 2%positive)]
    [("6110", 10%positive); ("411000", 11%positive);
     ("70700055", 12%positive); ("70700", 13%positive)]
    [("ADM", 20%positive); ("SUPP", 21%positive)].

Definition wizard_balanced : wizard :=
  mk_wizard None None None None false false false false SplitBalanced.

Definition wizard_move_name : wizard :=
  mk_wizard None None None None false false false false SplitMoveName.

Definition wizard_forced : wizard :=
  mk_wizard (Some "BQ") None (Some " salaries ") (Some (2024, 1, 31))
    false false false false SplitBalanced.

(** A line as the generic CSV parser builds it. *)
Definition mk_line (n : Z) (journal account : string) (debit credit : Q)
  : line :=
  list_to_map
    [("line", VInt n); ("journal", VStr journal); ("account", VStr account);
     ("date", VDate (PyDatetime 2024 1 1 0)); ("name", VStr "label");
     ("debit", VFloat (Finite debit)); ("credit", VFloat (Finite credit));
     ("ref", VStr ""); ("reconcile_ref", VStr "")].

Definition seq : pyval := VStr "IMP7".

(** Three lines: an unknown journal, a valid line, then an unknown account
    and an unknown partner. *)
Definition pivot_unresolved : list line :=
  [mk_line 2 "XX" "411000" 100 0;
   mk_line 3 "VT" "70700" 0 100;
   <["partner" := VStr "R99"]> (mk_line 4 "VT" "999" 0 0)].

(** A line in a journal the company does not have, and a line whose account
    cell was blank. *)
Definition line_unknown_journal : line := mk_line 2 "XX" "411000" 100 0.

Definition line_blank_account : line :=
  <["account" := VBool false]> (mk_line 3 "VT" "" 0 100).

(** Two debits in the sales journal, then a zero line in the bank journal. *)
Definition pivot_journal_change : list line :=
  [mk_line 2 "VT" "611000" 100 0;
   mk_line 3 "VT" "611000" 50 0;
   mk_line 4 "BQ" "411000" 0 0].

(** Two balanced pairs of lines, all in the same journal at the same date. *)
Definition pivot_two_pairs : list line :=
  [mk_line 2 "VT" "411000" 100 0;
   mk_line 3 "VT" "70700" 0 100;
   mk_line 4 "VT" "411000" 50 0;
   mk_line 5 "VT" "70700" 0 50].

(** A line after resolution: [mk_line] with its journal and account ids. *)
Definition mk_resolved (n : Z) (journal_id account_id : positive)
    (debit credit : Q) : line :=
  <["journal_id" := id_val journal_id]>
    (<["account_id" := id_val account_id]>
       (mk_line n "VT" "411000" debit credit)).

Definition no_state : rstate := mk_rstate no_errors [].

(** What the resolver adds to a line whose codes are found. *)
Definition resolve_with (journal_id account_id : positive) (l : line) : line :=
  <["journal_id" := id_val journal_id]>
    (<["account_id" := id_val account_id]> l).

(** [pivot_two_pairs] after resolution. *)
Definition resolved_two_pairs : list line :=
  [resolve_with 1 11 (mk_line 2 "VT" "411000" 100 0);
   resolve_with 1 13 (mk_line 3 "VT" "70700" 0 100);
   resolve_with 1 11 (mk_line 4 "VT" "411000" 50 0);
   resolve_with 1 13 (mk_line 5 "VT" "70700" 0 50)].

(** A receivable account that allows reconciliation, and two journal items
    marked ["A1"] on it, balanced, for two different partners. *)
Definition receivable : account :=
  mk_account 11 "411000" true "411000 Customers".

Definition lines_two_partners : list aml :=
  [mk_aml 101 "A1" 0 50 receivable (Some 7%positive);
   mk_aml 102 "A1" 50 0 receivable (Some 8%positive)].

Definition lines_one_partner : list aml :=
  [mk_aml 101 "A1" 0 50 receivable (Some 7%positive);
   mk_aml 102 "A1" 50 0 receivable (Some 7%positive)].


End Examples.



(** *** Account resolution, in the words of the specification *)







(** [errors[key][code]], [[]] when the code has no entry. *)
Fixpoint bucket_lines (code : pyval) (b : bucket) : list Z :=
  match b with
  | [] => []
  | (c, ns) :: b' => if py_eq c code then ns else bucket_lines code b'
  end.

(** *** Counting the recorded failures *)

(** The number of line numbers recorded in a bucket. *)
Fixpoint bucket_count (b : bucket) : nat :=
  match b with
  | [] => 0
  | (_, lines) :: b' => length lines + bucket_count b'
  end.

(** The number of failures recorded in [errors]: one per message of
    ['other'] and one per line number listed under a code. *)
Definition count_errors (e : errors) : nat :=
  (length (err_other e) + bucket_count (err_journal e) +
   bucket_count (err_account e) + bucket_count (err_partner e) +
   bucket_count (err_analytic e))%nat.

(** Every code of a bucket lists at least one line. *)
Definition bucket_wf (b : bucket) : Prop := Forall (fun item => item.2 <> []) b.

Definition errors_wf (e : errors) : Prop :=
  bucket_wf (err_journal e) /\ bucket_wf (err_account e) /\
  bucket_wf (err_partner e) /\ bucket_wf (err_analytic e).

(** Two runs of the same code, from [s] to [s'] and from [t] to [t'],
    record the same number of failures. *)
Definition same_growth (s s' t t' : rstate) : Prop :=
  exists k,
    count_errors (errs s') = (count_errors (errs s) + k)%nat /\
    count_errors (errs t') = (count_errors (errs t) + k)%nat /\
    (errors_wf (errs t) -> errors_wf (errs t')).

(** *** Balance of a journal entry *)

(** Credit minus debit of a journal item. *)
Definition line_amount (ml : move_line) : option Q :=
  credit ← as_num (ml_credit ml);
  debit ← as_num (ml_debit ml);
  Some (credit - debit)%Q.

(** Sum of credits minus sum of debits, accumulated line after line from
    [0.0] as the running balance is. *)
Definition balance_of (lines : list move_line) : option Q :=
  fold_left (fun acc ml => b ← acc; a ← line_amount ml; Some (b + a)%Q)
    lines (Some 0%Q).

Definition move_balance (m : move) : option Q := balance_of (line_ids m).

(** What holds of the variables of the EXTRACT MOVES loop between two
    iterations: the moves already closed have at least two lines, and the
    running balance is the balance of the lines of the open move. *)
Definition split_inv (st : split_state) : Prop :=
  Forall (fun m => (2 <= length (line_ids m))%nat) (moves st) /\
  match cur_move st with
  | Some m => line_ids m <> [] /\ move_balance m = Some (cur_balance st)
  | None => moves st = []
  end.

(** *** The analytic field, in the words of the specification *)

(** The segments of the field: its pieces between ['|'], trimmed, the empty
    ones left out. *)
Definition segments (a : string) : list string :=
  List.filter (fun seg => negb (String.eqb seg ""))
    (PyStr.strip <$> PyStr.split "|" a).

Definition has_colon (seg : string) : bool :=
  existsb (Ascii.eqb ":") (PyStr.chars seg).

(** The sub-code of a segment: the segment itself, or what precedes its
    last [':'], trimmed. *)
Definition sub_code (seg : string) : string :=
  if has_colon seg
  then PyStr.strip (PyStr.join ":" (removelast (PyStr.split ":" seg)))
  else seg.

(** The text of the percentage of a segment: what follows its last [':'],
    when it has one. *)
Definition pct_text (seg : string) : option string :=
  if has_colon seg then Some (List.last (PyStr.split ":" seg) "") else None.

(** [analytic_distribution.get(id)] *)
Fixpoint dist_get (id : positive) (d : list (positive * pyfloat))
  : option pyfloat :=
  match d with
  | [] => None
  | (i, p) :: d' => if Pos.eqb i id then Some p else dist_get id d'
  end.

Section AnalyticField.
Context `{Host}.

(** The id of the analytic account of a segment, when its sub-code is a code
    of the directory. *)
Definition analytic_id (sd : speeddict) (seg : string) : option positive :=
  assoc (sub_code seg) (sd_analytic sd).

(** The percentage of a segment: 100 without [:percentage]; otherwise the
    number written, with a comma or a dot as decimal separator, whatever
    [float()] reads there; 1 when [float()] does not read a number. *)
Definition percentage (seg : string) : pyfloat :=
  match pct_text seg with
  | None => Finite 100
  | Some text =>
      default (Finite 1) (py_float (PyStr.replace_char "," "." text))
  end.

(** The 'other' errors of a segment of line [n]: one when its percentage is
    not a number, one when it is a number below 0 or above 100.  NaN is
    neither. *)
Definition pct_errors (n : Z) (seg : string) : list other_error :=
  match pct_text seg with
  | None => []
  | Some text =>
      match py_float (PyStr.replace_char "," "." text) with
      | None => [WrongPctNotNumber n text]
      | Some x =>
          if float_lt x (Finite 0) || float_gt x (Finite 100)
          then [WrongPctRange n text]
          else []
      end
  end.

(** What a segment of line [n] adds to the distribution and to the
    errors. *)
Definition record_segment (sd : speeddict) (n : Z)
    (st : list (positive * pyfloat) * rstate) (seg : string)
  : list (positive * pyfloat) * rstate :=
  let '(dist, s) := st in
  let s := fold_left (fun s e => add_other e s) (pct_errors n seg) s in
  match analytic_id sd seg with
  | Some id => (dist_set id (percentage seg) dist, s)
  | None => (dist, add_analytic_error (VStr (sub_code seg)) n s)
  end.

End AnalyticField.

(** *** Lines that passed the validation gate *)

(** What the MATCHES + CHECKS loop has established of a line [l], resolved
    into [l'], when it has recorded no failure for it. *)
Definition resolved_line `{Host} (sd : speeddict) (l l' : line) : Prop :=
  (exists code journal_id,
     l !! "journal" = Some (VStr code) /\
     assoc code (sd_journal sd) = Some journal_id /\
     l' !! "journal_id" = Some (id_val journal_id)) /\
  truthy (get l' "account_id") = true /\
  (exists d, l' !! "date" = Some (VDate d)) /\
  is_Some (as_float (get l' "credit")) /\
  is_Some (as_float (get l' "debit")) /\
  (exists n, as_int (get l' "line") = Some n /\ n <> 0) /\
  (truthy (get l "partner") = true ->
   exists code partner_id,
     l !! "partner" = Some (VStr code) /\
     assoc code (sd_partner sd) = Some partner_id /\
     l' !! "partner_id" = Some (id_val partner_id)) /\
  (truthy (get l "analytic") = true ->
   exists a,
     l !! "analytic" = Some (VStr a) /\
     Forall (fun seg => is_Some (analytic_id sd seg) /\
                        forall n, pct_errors n seg = []) (segments a)).

(** The keys the resolver writes. *)
Definition resolver_keys : list string :=
  ["account_id"; "partner_id"; "analytic_distribution"; "journal_id"; "date"].

(** *** The journal items of a pivot *)

Section KeptItems.
Context `{Host}.

(** The journal items of the lines of the pivot that are not skipped, in the
    order of the pivot. *)
Fixpoint kept_items (self : wizard) (seq : pyval) (pivot : list line)
  : res (list move_line) :=
  match pivot with
  | [] => Ok []
  | l :: pivot' =>
      skip ← is_null_line self l;
      if (skip : bool) then kept_items self seq pivot'
      else
        ml ← _prepare_move_line l seq;
        mls ← kept_items self seq pivot';
        Ok (ml :: mls)
  end.

End KeptItems.

(** The journal items of the moves closed so far and of the open move. *)
Definition open_items (st : split_state) : list move_line :=
  concat (line_ids <$> moves st) ++
  match cur_move st with
  | Some m => line_ids m
  | None => []
  end.

(** The closed moves are balanced, and the open move is in journal [j] at
    date [d]. *)
Definition mono_inv `{Host} (j : positive) (d : pydate) (st : split_state)
  : Prop :=
  Forall (fun m => exists b, move_balance m = Some b /\ is_zero b = true)
    (moves st) /\
  (is_Some (cur_move st) ->
   cur_journal_id st = id_val j /\ cur_date st = VDate d).

(** *** Reconciliation groups *)

(** Credits minus debits of a group, accumulated as the code does. *)
Definition group_total (lines : list aml) : Q :=
  fold_left (fun total ln => (total + aml_credit ln - aml_debit ln)%Q)
    lines 0%Q.

(** The conditions under which a group is passed to [reconcile()]: at least
    two lines, a zero total, one account that allows reconciliation, and one
    partner (or none on every line). *)
Definition linkable `{Host} (lines : list aml) : Prop :=
  (2 <= length lines)%nat /\
  is_zero (group_total lines) = true /\
  exists first,
    head lines = Some first /\
    acc_reconcile (aml_account_id first) = true /\
    Forall (fun ln =>
              acc_id (aml_account_id ln) = acc_id (aml_account_id first) /\
              aml_partner_id ln = aml_partner_id first) lines.

(** [torec[tag]], [None] when no line has the tag. *)
Definition group_of (tag : string) (torec : list (string * list aml))
  : option (list aml) := assoc tag torec.

(** The lines marked [tag], in the order of the search. *)
Definition tagged (tag : string) (lines : list aml) : list aml :=
  List.filter (fun ln => String.eqb (aml_import_reconcile ln) tag) lines.

(** ** The generic CSV and the Ciel Paye parsers *)




Section MoreParsers.
Context `{Host}.










End MoreParsers.


(** ** The import, from the pivot to the moves *)

Section RunImport.
Context `{Host}.

(** The part of [run_import] between the parser and the creation of the
    moves: [clean_strip_pivot], [update_pivot], [create_moves_from_pivot]. *)
Definition run_import_moves (self : wizard) (sd : speeddict) (seq : pyval)
    (pivot : list line) : res (list move) :=
  pivot ← normalizer self pivot;
  create_moves_from_pivot self sd seq pivot.

End RunImport.

(** The journal, reference, date and name of the move [m] are those
    [_prepare_move] builds from a line of the pivot, and the first journal
    item of [m] is the one of that line. *)
Definition header_of_first_line (self : wizard) (seq : pyval)
    (pivot : list line) (m : move) : Prop :=
  exists (l : line) m0 ml,
    l ∈ pivot /\
    _prepare_move self l = Ok m0 /\
    _prepare_move_line l seq = Ok ml /\
    head (line_ids m) = Some ml /\
    set_line_ids m [] = m0.

(** Sample files for the generic CSV and the Ciel Paye parsers. *)
Module ParserExamples.




End ParserExamples.

(** * Properties *)

(** ** Strings *)

Module PyStrFacts.
Import PyStr.

Lemma lstrip_l_length l : (length (lstrip_l l) <= length l)%nat.
Proof.
  induction l as [|c l IH]; simpl; [lia|].
  destruct (isspace c); simpl; lia.
Qed.

Lemma lstrip_l_idem l : lstrip_l (lstrip_l l) = lstrip_l l.
Proof.
  induction l as [|c l IH]; simpl; [done|].
  destruct (isspace c) eqn:E; [done|]. simpl. by rewrite E.
Qed.

Lemma lstrip_l_suffix l : exists sp, l = sp ++ lstrip_l l.
Proof.
  induction l as [|c l [sp IH]]; simpl; [by exists []|].
  destruct (isspace c).
  - exists (c :: sp). simpl. by f_equal.
  - by exists [].
Qed.

Lemma lstrip_l_fixed_prefix a b :
  lstrip_l (a ++ b) = a ++ b -> a <> [] -> lstrip_l a = a.
Proof.
  destruct a as [|c a]; [done|]. simpl. intros Hfix _.
  destruct (isspace c); [|done].
  pose proof (lstrip_l_length (a ++ b)) as Hlen.
  rewrite Hfix in Hlen. simpl in Hlen. lia.
Qed.

Lemma rstrip_l_idem l : rstrip_l (rstrip_l l) = rstrip_l l.
Proof.
  unfold rstrip_l. by rewrite rev_involutive, lstrip_l_idem.
Qed.

Lemma lstrip_l_rstrip_l l :
  lstrip_l l = l -> lstrip_l (rstrip_l l) = rstrip_l l.
Proof.
  intros Hfix. unfold rstrip_l.
  destruct (lstrip_l_suffix (rev l)) as [sp Hsp].
  set (u := lstrip_l (rev l)) in *.
  destruct (decide (rev u = [])) as [->|Hne]; [done|].
  apply (lstrip_l_fixed_prefix _ (rev sp)); [|done].
  assert (l = rev u ++ rev sp) as <-; [|done].
  by rewrite <- rev_app_distr, <- Hsp, rev_involutive.
Qed.

Lemma strip_l_idem l : strip_l (strip_l l) = strip_l l.
Proof.
  unfold strip_l.
  rewrite (lstrip_l_rstrip_l (lstrip_l l)) by apply lstrip_l_idem.
  apply rstrip_l_idem.
Qed.

Lemma strip_idem s : strip (strip s) = strip s.
Proof.
  unfold strip.
  by rewrite list_ascii_of_string_of_list_ascii, strip_l_idem.
Qed.

End PyStrFacts.

(** ** Normalizer *)

Lemma clean_value_idem v : clean_value (clean_value v) = clean_value v.
Proof.
  unfold clean_value.
  destruct (truthy v) eqn:Hv; [|done].
  destruct v; simpl in *; rewrite ?Hv; try done.
  destruct (negb (PyStr.strip s =? "")%string) eqn:Hs; [|done].
  simpl. rewrite Hs, PyStrFacts.strip_idem. by rewrite Hs.
Qed.

Lemma force_field_lookup key fv (l : line) k :
  force_field key fv l !! k =
  if decide (key = k) then (if truthy fv then Some fv else l !! k)
  else l !! k.
Proof.
  unfold force_field. destruct (truthy fv).
  - rewrite lookup_insert. by repeat case_decide.
  - by case_decide; subst.
Qed.

Lemma default_zero_lookup key (l l' : line) k :
  default_zero key l = Ok l' ->
  l' !! k =
  if decide (key = k) then (fun v => if truthy v then v else VFloat (Finite 0)) <$> l !! k
  else l !! k.
Proof.
  unfold default_zero, getitem.
  destruct (l !! key) as [v|] eqn:Hv; simpl; [|done].
  intros [= <-]. destruct (truthy v) eqn:Ht; simpl.
  - case_decide; subst; [|done]. by rewrite Hv; simpl; rewrite Ht.
  - rewrite lookup_insert. case_decide; subst; [|done].
    by rewrite Hv; simpl; rewrite Ht.
Qed.

Lemma default_zero_is_Some key (l : line) :
  is_Some (l !! key) -> exists l', default_zero key l = Ok l'.
Proof.
  intros [v Hv]. unfold default_zero, getitem. rewrite Hv. simpl. eauto.
Qed.

Lemma default_zero_Ok_is_Some key (l l' : line) :
  default_zero key l = Ok l' -> is_Some (l !! key).
Proof.
  unfold default_zero, getitem. destruct (l !! key); [eauto|done].
Qed.

(** [update_pivot] field by field. *)
Lemma update_line_lookup self (l l' : line) k :
  update_line self l = Ok l' -> l' !! k = updated_field self k (l !! k).
Proof.
  unfold update_line.
  destruct (default_zero "credit" _) as [l1|e] eqn:H1; simpl; [|done].
  intros H2.
  rewrite (default_zero_lookup _ _ _ k H2), (default_zero_lookup _ _ _ k H1).
  rewrite !force_field_lookup.
  unfold updated_field, forced_value.
  repeat case_decide; subst; try done; try (exfalso; tauto);
    repeat match goal with
           | |- context [truthy ?v] => destruct (truthy v) eqn:?
           end; simpl in *; try done; try congruence.
  all: exfalso; match goal with Hor : _ \/ _ |- _ => by destruct Hor end.
Qed.

Lemma update_line_is_Some self (l : line) :
  is_Some (l !! "credit") -> is_Some (l !! "debit") ->
  exists l', update_line self l = Ok l'.
Proof.
  intros Hc Hd. unfold update_line.
  match goal with
  | |- context [default_zero "credit" ?m] =>
      destruct (default_zero_is_Some "credit" m) as [l1 H1]
  end.
  { rewrite !force_field_lookup. by repeat case_decide. }
  rewrite H1. simpl.
  apply default_zero_is_Some.
  rewrite (default_zero_lookup _ _ _ _ H1), !force_field_lookup.
  by repeat case_decide.
Qed.

Lemma update_line_Ok_is_Some self (l l' : line) :
  update_line self l = Ok l' ->
  is_Some (l !! "credit") /\ is_Some (l !! "debit").
Proof.
  unfold update_line.
  destruct (default_zero "credit" _) as [l1|e] eqn:H1; simpl; [|done].
  intros H2.
  apply default_zero_Ok_is_Some in H2.
  rewrite (default_zero_lookup _ _ _ _ H1), !force_field_lookup in H2.
  apply default_zero_Ok_is_Some in H1.
  rewrite !force_field_lookup in H1.
  repeat case_decide; try done.
Qed.

Lemma updated_field_clean_idem self k (o : option pyval) :
  updated_field self k
    (clean_value <$> updated_field self k (clean_value <$> o)) =
  updated_field self k (clean_value <$> o).
Proof.
  unfold updated_field.
  destruct (truthy (forced_value self k)) eqn:Hf; [done|].
  case_decide.
  - destruct o as [v|]; simpl; [|done]. f_equal.
    destruct (truthy (clean_value v)) eqn:Hv.
    + by rewrite clean_value_idem, Hv.
    + done.
  - destruct o as [v|]; simpl; [|done]. by rewrite clean_value_idem.
Qed.

Lemma normalize_line_idem self (l l' : line) :
  update_line self (clean_value <$> l) = Ok l' ->
  update_line self (clean_value <$> l') = Ok l'.
Proof.
  intros Hl.
  destruct (update_line_Ok_is_Some _ _ _ Hl) as [Hc Hd].
  destruct (update_line_is_Some self (clean_value <$> l')) as [l'' Hl''].
  { rewrite lookup_fmap, (update_line_lookup _ _ _ _ Hl).
    unfold updated_field, forced_value. simpl.
    destruct Hc as [v ->]. simpl. eauto. }
  { rewrite lookup_fmap, (update_line_lookup _ _ _ _ Hl).
    unfold updated_field, forced_value. simpl.
    destruct Hd as [v ->]. simpl. eauto. }
  rewrite Hl''. f_equal. apply map_eq. intros k.
  rewrite (update_line_lookup _ _ _ _ Hl''), lookup_fmap.
  rewrite !(update_line_lookup _ _ _ _ Hl), lookup_fmap.
  apply updated_field_clean_idem.
Qed.

Lemma mapM_normalize_idem self (pivot pivot' : list line) :
  mapM (update_line self) ((fun l : line => clean_value <$> l) <$> pivot)
    = Ok pivot' ->
  mapM (update_line self) ((fun l : line => clean_value <$> l) <$> pivot')
    = Ok pivot'.
Proof.
  revert pivot'. induction pivot as [|l pivot IH]; intros pivot'; simpl.
  - by intros [= <-].
  - destruct (update_line self (clean_value <$> l)) as [l'|e] eqn:Hl;
      simpl; [|done].
    destruct (mapM _ _) as [ls|e] eqn:Hls; simpl; [|done].
    intros [= <-]. csimpl.
    by rewrite (normalize_line_idem _ _ _ Hl), (IH _ eq_refl).
Qed.


(** C9. The Normalizer ([clean_strip_pivot] followed by [update_pivot], for a
    fixed wizard) is idempotent: run on a pivot it has already normalised, it
    returns that pivot unchanged. *)
Theorem normalizer_idempotent self (pivot pivot' : list line) :
  normalizer self pivot = Ok pivot' -> normalizer self pivot' = Ok pivot'.
Proof. apply mapM_normalize_idem. Qed.

Lemma normalizer_idempotent_witness :
  match normalizer Examples.wizard_forced
          [Examples.mk_line 2 " vt" "611000 " 0 (25 # 2)] with
  | Ok pivot' => normalizer Examples.wizard_forced pivot' = Ok pivot'
  | Raise _ => False
  end.
Proof.
  destruct (normalizer Examples.wizard_forced
              [Examples.mk_line 2 " vt" "611000 " 0 (25 # 2)])
    as [pivot'|e] eqn:Hn.
  - exact (normalizer_idempotent Examples.wizard_forced _ pivot' Hn).
  - apply (f_equal (fun r => match r with Ok _ => true | Raise _ => false end))
      in Hn.
    vm_compute in Hn. discriminate Hn.
Defined.

(** ** Results *)

Lemma bind_Ok {A B} (m : res A) (f : A -> res B) (b : B) :
  m ≫= f = Ok b -> exists a, m = Ok a /\ f a = Ok b.
Proof. destruct m as [a|e]; [eauto|done]. Qed.

Lemma bind_Raise {A B} (m : res A) (f : A -> res B) (e : exn) :
  m ≫= f = Raise e -> m = Raise e \/ exists a, m = Ok a /\ f a = Raise e.
Proof.
  destruct m as [a|e']; intros Hm; [right; eauto|left].
  simpl in Hm. by injection Hm as ->.
Qed.

Ltac bind_inv H :=
  repeat (let a := fresh "a" in
          let Ha := fresh "Ha" in
          apply bind_Ok in H as (a & Ha & H)).

(** ** Parsers with an unconditional header line *)

Section ParserFacts.
Context `{Host}.






(** The record built from the first row is never part of the result: the
    parsers do not even look at that row. *)
Lemma first_row_ignored self row row' rows :
  fectxt2pivot self (row :: rows) = fectxt2pivot self (row' :: rows) /\
  nibelis2pivot self (row :: rows) = nibelis2pivot self (row' :: rows).
Proof. done. Qed.


End ParserFacts.


(** ** Account resolution *)

Lemma get_insert_eq (l : line) key v : get (<[key := v]> l) key = v.
Proof. unfold get. by rewrite lookup_insert_eq. Qed.

Lemma get_insert_ne (l : line) key key' v :
  key <> key' -> get (<[key := v]> l) key' = get l key'.
Proof. intros. unfold get. by rewrite lookup_insert_ne. Qed.

Lemma truthy_id_val id : truthy (id_val id) = true.
Proof. done. Qed.




Lemma bucket_lines_add code n b :
  py_eq code code = true ->
  bucket_lines code (bucket_add code n b) = bucket_lines code b ++ [n].
Proof.
  intros Hrefl. induction b as [|[c ns] b IH]; simpl.
  - by rewrite Hrefl.
  - destruct (py_eq c code) eqn:Hc; simpl; by rewrite Hc.
Qed.

Lemma py_eq_str_refl s : py_eq (VStr s) (VStr s) = true.
Proof. simpl. apply String.eqb_refl. Qed.




(** ** The validation gate *)

Lemma bucket_add_count code n b :
  bucket_count (bucket_add code n b) = S (bucket_count b).
Proof.
  induction b as [|[c ns] b IH]; simpl; [done|].
  destruct (py_eq c code); simpl.
  - rewrite length_app. simpl. lia.
  - rewrite IH. lia.
Qed.

Lemma bucket_add_wf code n b : bucket_wf b -> bucket_wf (bucket_add code n b).
Proof.
  unfold bucket_wf. induction b as [|[c ns] b IH]; simpl; intros Hwf.
  - by repeat constructor.
  - inversion Hwf; subst. destruct (py_eq c code); constructor; simpl; auto.
    by destruct ns.
Qed.

Lemma bucket_wf_count b : bucket_wf b -> b <> [] -> (0 < bucket_count b)%nat.
Proof.
  intros Hwf Hne. destruct b as [|[c ns] b]; [done|].
  inversion Hwf; subst. simpl in *. destruct ns; [done|]. simpl. lia.
Qed.

Lemma bucket_count_nil b : bucket_count b = 0%nat -> bucket_wf b -> b = [].
Proof.
  intros Hc Hwf. destruct b as [|item b]; [done|].
  pose proof (bucket_wf_count _ Hwf ltac:(done)). lia.
Qed.

Lemma has_errors_count e :
  errors_wf e -> has_errors e = true <-> (0 < count_errors e)%nat.
Proof.
  destruct e as [o j a p an]. unfold errors_wf, has_errors, count_errors.
  simpl. intros (Hj & Ha & Hp & Han). split.
  - intros Hhas.
    destruct j; [|pose proof (bucket_wf_count _ Hj ltac:(done)); lia].
    destruct a; [|pose proof (bucket_wf_count _ Ha ltac:(done)); lia].
    destruct p; [|pose proof (bucket_wf_count _ Hp ltac:(done)); lia].
    destruct an; [|pose proof (bucket_wf_count _ Han ltac:(done)); lia].
    destruct o; [done|]. simpl. lia.
  - intros Hpos.
    destruct j; [|done]. destruct a; [|done]. destruct p; [|done].
    destruct an; [|done]. destruct o; [|done]. simpl in Hpos. lia.
Qed.

Lemma no_errors_wf : errors_wf no_errors.
Proof. repeat split; constructor. Qed.

Lemma count_add_log r s :
  count_errors (errs (add_log r s)) = count_errors (errs s).
Proof. done. Qed.

Lemma count_add_other e s :
  count_errors (errs (add_other e s)) = S (count_errors (errs s)).
Proof. unfold count_errors. simpl. rewrite length_app. simpl. lia. Qed.

Lemma count_add_journal_error c n s :
  count_errors (errs (add_journal_error c n s)) = S (count_errors (errs s)).
Proof. unfold count_errors. simpl. rewrite bucket_add_count. lia. Qed.

Lemma count_add_account_error c n s :
  count_errors (errs (add_account_error c n s)) = S (count_errors (errs s)).
Proof. unfold count_errors. simpl. rewrite bucket_add_count. lia. Qed.

Lemma count_add_partner_error c n s :
  count_errors (errs (add_partner_error c n s)) = S (count_errors (errs s)).
Proof. unfold count_errors. simpl. rewrite bucket_add_count. lia. Qed.

Lemma count_add_analytic_error c n s :
  count_errors (errs (add_analytic_error c n s)) = S (count_errors (errs s)).
Proof. unfold count_errors. simpl. rewrite bucket_add_count. lia. Qed.

Lemma wf_add_other e s :
  errors_wf (errs s) -> errors_wf (errs (add_other e s)).
Proof. done. Qed.

Lemma wf_add_journal_error c n s :
  errors_wf (errs s) -> errors_wf (errs (add_journal_error c n s)).
Proof.
  intros (Hj & Ha & Hp & Han). unfold errors_wf. simpl.
  repeat split; auto using bucket_add_wf.
Qed.

Lemma wf_add_account_error c n s :
  errors_wf (errs s) -> errors_wf (errs (add_account_error c n s)).
Proof.
  intros (Hj & Ha & Hp & Han). unfold errors_wf. simpl.
  repeat split; auto using bucket_add_wf.
Qed.

Lemma wf_add_partner_error c n s :
  errors_wf (errs s) -> errors_wf (errs (add_partner_error c n s)).
Proof.
  intros (Hj & Ha & Hp & Han). unfold errors_wf. simpl.
  repeat split; auto using bucket_add_wf.
Qed.

Lemma wf_add_analytic_error c n s :
  errors_wf (errs s) -> errors_wf (errs (add_analytic_error c n s)).
Proof.
  intros (Hj & Ha & Hp & Han). unfold errors_wf. simpl.
  repeat split; auto using bucket_add_wf.
Qed.

Lemma same_growth_refl s t : same_growth s s t t.
Proof. exists 0%nat. split; [lia|]. split; [lia|done]. Qed.

Lemma same_growth_trans s s1 s2 t t1 t2 :
  same_growth s s1 t t1 -> same_growth s1 s2 t1 t2 -> same_growth s s2 t t2.
Proof.
  intros (k & H1 & H2 & H3) (k' & H1' & H2' & H3').
  exists (k + k')%nat. split; [lia|]. split; [lia|auto].
Qed.

Lemma same_growth_log r s s' t t' :
  same_growth s s' t t' -> same_growth s (add_log r s') t (add_log r t').
Proof. done. Qed.

Lemma same_growth_other e s s' t t' :
  same_growth s s' t t' -> same_growth s (add_other e s') t (add_other e t').
Proof.
  intros (k & H1 & H2 & H3). exists (S k).
  rewrite !count_add_other.
  split; [lia|]. split; [lia|auto using wf_add_other].
Qed.

Lemma same_growth_journal c n s s' t t' :
  same_growth s s' t t' ->
  same_growth s (add_journal_error c n s') t (add_journal_error c n t').
Proof.
  intros (k & H1 & H2 & H3). exists (S k).
  rewrite !count_add_journal_error.
  split; [lia|]. split; [lia|auto using wf_add_journal_error].
Qed.

Lemma same_growth_account c n s s' t t' :
  same_growth s s' t t' ->
  same_growth s (add_account_error c n s') t (add_account_error c n t').
Proof.
  intros (k & H1 & H2 & H3). exists (S k).
  rewrite !count_add_account_error.
  split; [lia|]. split; [lia|auto using wf_add_account_error].
Qed.

Lemma same_growth_partner c n s s' t t' :
  same_growth s s' t t' ->
  same_growth s (add_partner_error c n s') t (add_partner_error c n t').
Proof.
  intros (k & H1 & H2 & H3). exists (S k).
  rewrite !count_add_partner_error.
  split; [lia|]. split; [lia|auto using wf_add_partner_error].
Qed.

Lemma same_growth_analytic c n s s' t t' :
  same_growth s s' t t' ->
  same_growth s (add_analytic_error c n s') t (add_analytic_error c n t').
Proof.
  intros (k & H1 & H2 & H3). exists (S k).
  rewrite !count_add_analytic_error.
  split; [lia|]. split; [lia|auto using wf_add_analytic_error].
Qed.

Create HintDb growth.
#[local] Hint Resolve same_growth_refl same_growth_log same_growth_other
  same_growth_journal same_growth_account same_growth_partner
  same_growth_analytic : growth.

(** Destructs every scrutinee of the goal; the cases left are the ends of
    the paths of the code. *)
Ltac paths :=
  unfold mbind, res_bind, getitem;
  repeat (simpl; case_match; try done; simplify_eq).

Ltac same_run :=
  intros ?; simplify_eq; eexists; (split; [reflexivity|]); eauto 10 with growth.

Section GateFacts.
Context `{Host}.

Lemma match_account_growth sd n (l : line) s t l' s' :
  match_account sd n l s = Ok (l', s') ->
  exists t', match_account sd n l t = Ok (l', t') /\ same_growth s s' t t'.
Proof. unfold match_account. paths; same_run. Qed.

Lemma match_partner_growth sd n (l : line) s t l' s' :
  match_partner sd n l s = Ok (l', s') ->
  exists t', match_partner sd n l t = Ok (l', t') /\ same_growth s s' t t'.
Proof. unfold match_partner. paths; same_run. Qed.

Lemma match_journal_growth sd n (l : line) s t l' s' :
  match_journal sd n l s = Ok (l', s') ->
  exists t', match_journal sd n l t = Ok (l', t') /\ same_growth s s' t t'.
Proof. unfold match_journal. paths; same_run. Qed.

Lemma check_date_growth n (l : line) s t :
  (check_date n l s).1 = (check_date n l t).1 /\
  same_growth s (check_date n l s).2 t (check_date n l t).2.
Proof. unfold check_date. paths; split; eauto with growth. Qed.

Lemma check_amount_growth key mk n (l : line) s t s' :
  check_amount key mk n l s = Ok s' ->
  exists t', check_amount key mk n l t = Ok t' /\ same_growth s s' t t'.
Proof. unfold check_amount. paths; same_run. Qed.

Lemma match_ana_entry_growth sd n dist s t entry :
  (match_ana_entry sd n (dist, s) entry).1 =
  (match_ana_entry sd n (dist, t) entry).1 /\
  same_growth s (match_ana_entry sd n (dist, s) entry).2
    t (match_ana_entry sd n (dist, t) entry).2.
Proof.
  unfold match_ana_entry.
  destruct (truthy (VStr (PyStr.strip entry)));
    [|split; [done|apply same_growth_refl]].
  destruct (PyStr.split ":" (PyStr.strip entry)) as [|c [|c2 rest]].
  - destruct (py_float _); cbv zeta;
      destruct (_ || _); destruct (assoc _ _);
      split; eauto 10 with growth.
  - destruct (assoc _ _); split; eauto 10 with growth.
  - destruct (py_float _); cbv zeta;
      destruct (_ || _); destruct (assoc _ _);
      split; eauto 10 with growth.
Qed.

Lemma fold_ana_growth sd n entries dist s0 s t0 t :
  same_growth s0 s t0 t ->
  (fold_left (match_ana_entry sd n) entries (dist, s)).1 =
  (fold_left (match_ana_entry sd n) entries (dist, t)).1 /\
  same_growth s0 (fold_left (match_ana_entry sd n) entries (dist, s)).2
    t0 (fold_left (match_ana_entry sd n) entries (dist, t)).2.
Proof.
  revert dist s t. induction entries as [|entry entries IH]; intros dist s t Hg.
  - done.
  - cbn [fold_left].
    destruct (match_ana_entry_growth sd n dist s t entry) as [Hd Hs].
    destruct (match_ana_entry sd n (dist, s) entry) as [d1 s1].
    destruct (match_ana_entry sd n (dist, t) entry) as [d2 t1].
    simpl in *. subst d2. apply IH. by eapply same_growth_trans.
Qed.

Lemma match_analytic_growth sd n (l : line) s t l' s' :
  match_analytic sd n l s = Ok (l', s') ->
  exists t', match_analytic sd n l t = Ok (l', t') /\ same_growth s s' t t'.
Proof.
  unfold match_analytic. destruct (truthy (get l "analytic")); [|same_run].
  destruct (get l "analytic") as [| | | |a| |]; try done.
  destruct (fold_ana_growth sd n (PyStr.split "|" a) [] s s t t) as [Hd Hs];
    [apply same_growth_refl|].
  destruct (fold_left _ _ ([], s)) as [d1 s1].
  destruct (fold_left _ _ ([], t)) as [d2 t1]. simpl in *. subst d2.
  intros [= <- <-]. eauto.
Qed.

Lemma match_line_growth sd (l : line) s t l' s' :
  match_line sd l s = Ok (l', s') ->
  exists t', match_line sd l t = Ok (l', t') /\ same_growth s s' t t'.
Proof.
  unfold match_line. intros Hl.
  apply bind_Ok in Hl as (n & -> & Hl). simpl.
  apply bind_Ok in Hl as ([l1 s1] & H1 & Hl).
  apply (match_account_growth _ _ _ _ t) in H1 as (t1 & -> & G1). simpl.
  apply bind_Ok in Hl as ([l2 s2] & H2 & Hl).
  apply (match_partner_growth _ _ _ _ t1) in H2 as (t2 & -> & G2). simpl.
  apply bind_Ok in Hl as ([l3 s3] & H3 & Hl).
  apply (match_analytic_growth _ _ _ _ t2) in H3 as (t3 & -> & G3). simpl.
  apply bind_Ok in Hl as ([l4 s4] & H4 & Hl).
  apply (match_journal_growth _ _ _ _ t3) in H4 as (t4 & -> & G4). simpl.
  destruct (check_date_growth n l4 s4 t4) as [Hd G5].
  destruct (check_date n l4 s4) as [l5 s5].
  destruct (check_date n l4 t4) as [l5' t5]. simpl in *. subst l5'.
  apply bind_Ok in Hl as (s6 & H6 & Hl).
  apply (check_amount_growth _ _ _ _ _ t5) in H6 as (t6 & -> & G6). simpl.
  apply bind_Ok in Hl as (s7 & H7 & Hl).
  apply (check_amount_growth _ _ _ _ _ t6) in H7 as (t7 & -> & G7). simpl.
  injection Hl as <- <-. eexists. split; [reflexivity|].
  repeat (eapply same_growth_trans; [eassumption|]). apply same_growth_refl.
Qed.

End GateFacts.

Section Gate.
Context `{Host}.

Lemma match_pivot_count sd pivot s pivot' s' :
  errors_wf (errs s) ->
  match_pivot sd pivot s = Ok (pivot', s') ->
  (count_errors (errs s) <= count_errors (errs s'))%nat /\
  errors_wf (errs s').
Proof.
  revert s pivot' s'.
  induction pivot as [|l pivot IH]; intros s pivot' s' Hwf; cbn [match_pivot].
  - by intros [= <- <-].
  - intros Hp. apply bind_Ok in Hp as ([l1 s1] & Hl & Hp).
    apply bind_Ok in Hp as ([ls s2] & Hls & Hp). injection Hp as <- <-.
    destruct (match_line_growth sd l s s l1 s1 Hl)
      as (s1' & Hs1' & k & Hk1 & _ & Hwf1).
    rewrite Hl in Hs1'. injection Hs1' as <-.
    destruct (IH s1 ls s2 (Hwf1 Hwf) Hls) as [Hcount Hwf2].
    split; [lia|done].
Qed.

Lemma match_pivot_app sd pre post s :
  match_pivot sd (pre ++ post) s =
  '(pre', s1) ← match_pivot sd pre s;
  '(post', s2) ← match_pivot sd post s1;
  Ok (pre' ++ post', s2).
Proof.
  revert s. induction pre as [|l pre IH]; intros s; cbn [app match_pivot].
  - cbn. by destruct (match_pivot sd post s) as [[post' s2]|e].
  - destruct (match_line sd l s) as [[l1 s1]|e]; cbn; [|done].
    rewrite IH.
    destruct (match_pivot sd pre s1) as [[pre' s2]|e]; cbn; [|done].
    by destruct (match_pivot sd post s2) as [[post' s3]|e].
Qed.

Lemma match_account_blank sd n (l : line) s :
  l !! "account" = Some (VBool false) ->
  l !! "account_id" = None ->
  sd_account sd <> [] ->
  match_account sd n l s = Raise TypeError.
Proof.
  intros Ha Hid Hne. unfold match_account, getitem. rewrite Ha.
  cbn [mbind res_bind lookup_code]. unfold get. rewrite Hid.
  cbn [default truthy negb truncate_search mbind res_bind].
  rewrite Hid. cbn [default truthy negb].
  destruct (sd_account sd) as [|[c a] rest]; [done|]. reflexivity.
Qed.

(** C4, against the code.  The MATCHES + CHECKS loop does not always reach
    the list of errors.  An account cell left blank is [False] after
    [clean_strip_pivot]; when the company has an account, the prefix scan
    evaluates [code.startswith(False)] on the line that carries it and the
    loop stops on a [TypeError], whatever failures it has recorded on the
    lines before ([pre], with the errors in [s]): the aggregate [UserError]
    that lists them is never raised.  No move is created. *)
Theorem blank_account_hides_failures self sd seq pre (l : line) post pre' s n :
  match_pivot sd pre (mk_rstate no_errors []) = Ok (pre', s) ->
  check_line_number l = Ok n ->
  l !! "account" = Some (VBool false) ->
  l !! "account_id" = None ->
  sd_account sd <> [] ->
  create_moves_from_pivot self sd seq (pre ++ l :: post) = Raise TypeError.
Proof.
  intros Hpre Hn Ha Hid Hne. unfold create_moves_from_pivot.
  rewrite match_pivot_app, Hpre. cbn [mbind res_bind match_pivot].
  unfold match_line. rewrite Hn. cbn [mbind res_bind].
  by rewrite (match_account_blank sd n l s Ha Hid Hne).
Qed.

End Gate.

Lemma blank_account_hides_failures_witness :
  match match_pivot Examples.sd [Examples.line_unknown_journal]
          (mk_rstate no_errors []) with
  | Ok (_, s) =>
      has_errors (errs s) = true /\
      create_moves_from_pivot Examples.wizard_balanced Examples.sd
        Examples.seq
        ([Examples.line_unknown_journal] ++ Examples.line_blank_account :: [])
        = Raise TypeError
  | Raise _ => False
  end.
Proof.
  destruct (match_pivot Examples.sd [Examples.line_unknown_journal]
              (mk_rstate no_errors [])) as [[pre' s]|e] eqn:Hp.
  - split.
    + assert (has_errors (errs s) =
              match match_pivot Examples.sd [Examples.line_unknown_journal]
                      (mk_rstate no_errors []) with
              | Ok (_, s) => has_errors (errs s)
              | Raise _ => false
              end) as -> by (by rewrite Hp).
      vm_compute. reflexivity.
    + apply (blank_account_hides_failures Examples.wizard_balanced
               Examples.sd Examples.seq [Examples.line_unknown_journal]
               Examples.line_blank_account [] pre' s 3 Hp);
        [reflexivity|reflexivity|reflexivity|discriminate].
  - apply (f_equal (fun r => match r with Ok _ => true | Raise _ => false end))
      in Hp.
    vm_compute in Hp. discriminate Hp.
Defined.

(** ** Move splitter *)

Lemma balance_of_snoc lines ml :
  balance_of (lines ++ [ml]) =
  b ← balance_of lines; a ← line_amount ml; Some (b + a)%Q.
Proof. unfold balance_of. by rewrite fold_left_app. Qed.

Lemma prepare_move_line_amount (l : line) seq ml c d :
  _prepare_move_line l seq = Ok ml ->
  amount l "credit" = Ok c -> amount l "debit" = Ok d ->
  line_amount ml = Some (c - d)%Q.
Proof.
  unfold _prepare_move_line, amount. intros Hml Hc Hd.
  apply bind_Ok in Hml as (vc & Hvc & Hml).
  apply bind_Ok in Hml as (vd & Hvd & Hml).
  apply bind_Ok in Hml as (vn & _ & Hml).
  apply bind_Ok in Hml as (va & _ & Hml).
  injection Hml as <-. rewrite Hvc in Hc. rewrite Hvd in Hd.
  unfold line_amount, as_num. simpl in *.
  destruct (as_float vc) as [[c'| |]|]; try done.
  destruct (as_float vd) as [[d'| |]|]; try done.
  by simplify_eq.
Qed.

Section Splitter.
Context `{Host}.

Lemma split_step_inv self seq st (l : line) st' :
  split_inv st -> split_step self seq st l = Ok st' -> split_inv st'.
Proof.
  intros [Hmoves Hcur] Hstep. unfold split_step in Hstep.
  apply bind_Ok in Hstep as (skip & Hskip & Hstep).
  destruct skip.
  { apply bind_Ok in Hstep as (v & _ & Hstep). injection Hstep as <-.
    by split. }
  apply bind_Ok in Hstep as ([same s] & Hsame & Hstep).
  apply bind_Ok in Hstep as (st1 & Hst1 & Hstep).
  apply bind_Ok in Hstep as (c & Hc & Hstep).
  apply bind_Ok in Hstep as (d & Hd & Hstep).
  injection Hstep as <-. unfold split_inv. simpl.
  destruct (all same).
  - destruct (cur_move st) as [m|] eqn:Hm; [|done].
    apply bind_Ok in Hst1 as (ml & Hml & Hst1). injection Hst1 as <-.
    simpl. split; [done|]. destruct Hcur as [Hne Hbal]. split.
    + by destruct (line_ids m).
    + unfold move_balance in *. simpl. rewrite balance_of_snoc, Hbal. simpl.
      by rewrite (prepare_move_line_amount _ _ _ _ _ Hml Hc Hd).
  - apply bind_Ok in Hst1 as (moves' & Hmoves' & Hst1).
    apply bind_Ok in Hst1 as (m' & Hm' & Hst1).
    apply bind_Ok in Hst1 as (ml & Hml & Hst1).
    apply bind_Ok in Hst1 as (date & Hdate & Hst1).
    apply bind_Ok in Hst1 as (jid & Hjid & Hst1).
    injection Hst1 as <-. simpl. split.
    + destruct (cur_move st) as [m|] eqn:Hm.
      * destruct (length (line_ids m) <=? 1)%nat eqn:Hlen.
        { by apply bind_Ok in Hmoves' as (v & _ & ?). }
        injection Hmoves' as <-. apply Forall_app. split; [done|].
        constructor; [|constructor]. apply Nat.leb_gt in Hlen. lia.
      * by injection Hmoves' as <-.
    + split; [done|]. unfold move_balance, balance_of. simpl.
      by rewrite (prepare_move_line_amount _ _ _ _ _ Hml Hc Hd).
Qed.

Lemma foldM_split_inv self seq pivot st st' :
  split_inv st -> foldM (split_step self seq) st pivot = Ok st' ->
  split_inv st'.
Proof.
  revert st. induction pivot as [|l pivot IH]; intros st Hinv; simpl.
  - by intros [= <-].
  - intros Hf. apply bind_Ok in Hf as (st1 & Hst1 & Hf).
    eapply IH; [|exact Hf]. by eapply split_step_inv.
Qed.

Lemma split_init_inv s : split_inv (split_init s).
Proof. split; [constructor|done]. Qed.

End Splitter.

Section SplitEntries.
Context `{Host}.

Lemma extract_moves_Ok self seq pivot s emitted :
  extract_moves self seq pivot s = Ok emitted ->
  exists st,
    foldM (split_step self seq) (split_init s) pivot = Ok st /\
    split_inv st /\ is_zero (cur_balance st) = true /\
    emitted = moves st ++ option_list (cur_move st).
Proof.
  unfold extract_moves. intros He.
  apply bind_Ok in He as (st & Hst & He). exists st. split; [done|].
  split; [by eapply foldM_split_inv; [apply split_init_inv|]|].
  destruct (is_zero (cur_balance st)); [|done]. by injection He as <-.
Qed.

(** C1, as the code has it.  When [create_moves_from_pivot] reaches the
    creation of the moves, every move closed at a split (every move but the
    last) has at least 2 lines, and the last move, closed after the last
    line, has at least one line and a balance (sum of credits minus sum of
    debits) that is zero for the company currency. *)
Theorem split_entries_checked self sd seq pivot emitted :
  create_moves_from_pivot self sd seq pivot = Ok emitted ->
  forall (i : nat) m, emitted !! i = Some m ->
    ((S i < length emitted)%nat -> (2 <= length (line_ids m))%nat) /\
    (S i = length emitted ->
     line_ids m <> [] /\
     exists b, move_balance m = Some b /\ is_zero b = true).
Proof.
  unfold create_moves_from_pivot. intros Hc.
  apply bind_Ok in Hc as ([pivot' s] & _ & Hc).
  destruct (has_errors (errs s)); [done|].
  apply extract_moves_Ok in Hc as (st & _ & [Hmoves Hcur] & Hzero & ->).
  intros i m Hm.
  destruct (cur_move st) as [cur|] eqn:Hcm; simpl in *.
  - destruct Hcur as [Hne Hbal]. rewrite length_app in *. simpl.
    destruct (decide (i < length (moves st))%nat) as [Hlt|Hge].
    + rewrite lookup_app_l in Hm by done. split; [|lia]. intros _.
      by eapply (Forall_lookup_1 _ _ _ _ Hmoves).
    + rewrite lookup_app_r in Hm by lia.
      destruct (i - length (moves st))%nat eqn:Hi; [|done].
      injection Hm as <-. split; [lia|]. intros _. split; [done|].
      exists (cur_balance st). done.
  - rewrite Hcur in Hm. done.
Qed.

End SplitEntries.

Lemma split_entries_checked_witness :
  exists emitted,
    create_moves_from_pivot Examples.wizard_balanced Examples.sd Examples.seq
      Examples.pivot_two_pairs = Ok emitted /\
    forall (i : nat) m, emitted !! i = Some m ->
      ((S i < length emitted)%nat -> (2 <= length (line_ids m))%nat) /\
      (S i = length emitted ->
       line_ids m <> [] /\
       exists b, move_balance m = Some b /\ is_zero b = true).
Proof.
  eexists. split; [vm_compute; reflexivity|].
  apply (split_entries_checked Examples.wizard_balanced Examples.sd
           Examples.seq Examples.pivot_two_pairs).
  vm_compute. reflexivity.
Defined.

(** C1 as stated fails.  In the balanced policy a change of journal closes
    the open move whatever its balance, and the move closed after the last
    line is not checked for its number of lines: here the first move emitted
    has a balance of -150 and the second a single line. *)
Lemma split_entries_counterexample :
  exists m1 m2,
    create_moves_from_pivot Examples.wizard_balanced Examples.sd Examples.seq
      Examples.pivot_journal_change = Ok [m1; m2] /\
    move_balance m1 = Some (0 + (0 - 100) + (0 - 50))%Q /\
    is_zero (0 + (0 - 100) + (0 - 50))%Q = false /\
    length (line_ids m2) = 1%nat.
Proof.
  eexists _, _. split; [vm_compute; reflexivity|].
  split; [reflexivity|]. split; reflexivity.
Qed.

Section BalancedPolicy.
Context `{Host}.

Lemma same_move_tests_balanced self st (l : line) same s :
  split_move_method self = SplitBalanced ->
  same_move_tests self st l = Ok (same, s) ->
  s = split_errors st /\
  exists journal_id,
    l !! "journal_id" = Some journal_id /\
    all same =
      py_eq (cur_journal_id st) journal_id &&
      negb (is_zero (cur_balance st)) &&
      (date_by_move_line self || py_eq (cur_date st) (get l "date")).
Proof.
  unfold same_move_tests, getitem, get. intros ->.
  destruct (l !! "journal_id") as [jid|]; [|done].
  destruct (date_by_move_line self); cbn.
  - intros [= <- <-]. split; [done|]. exists jid. split; [done|].
    by destruct (py_eq _ jid), (is_zero _).
  - destruct (l !! "date") as [date|]; [|done]. cbn.
    intros [= <- <-]. split; [done|]. exists jid. split; [done|].
    by destruct (py_eq _ jid), (is_zero _), (py_eq _ date).
Qed.


End BalancedPolicy.



Section SingleLine.
Context `{Host}.

Lemma split_step_first_not_only_one_line self seq s (l : line) v dbg :
  split_step self seq (split_init s) l <> Raise (UserError (OnlyOneLine v dbg)).
Proof.
  unfold split_step, split_init, is_null_line, same_move_tests, _prepare_move,
    _prepare_move_line, amount.
  paths; congruence.
Qed.

Lemma py_eq_False_id j : py_eq (VBool false) (id_val j) = false.
Proof. done. Qed.

(** C5, as the code has it.  On a pivot of one line the splitter never
    raises the 'only has 1 line' error, which is raised at a split only.
    Under the balanced policy, when the line (resolved, with the id of its
    journal) is not skipped and its credit minus its debit is not zero for
    the currency, the splitter raises the 'not balanced' error that reports
    this residual balance. *)
Theorem single_line_outcome self seq (l : line) s :
  (forall v dbg,
     extract_moves self seq [l] s <> Raise (UserError (OnlyOneLine v dbg))) /\
  (forall j c d m ml,
     split_move_method self = SplitBalanced ->
     is_null_line self l = Ok false ->
     l !! "journal_id" = Some (id_val j) ->
     _prepare_move self l = Ok m ->
     _prepare_move_line l seq = Ok ml ->
     amount l "credit" = Ok c ->
     amount l "debit" = Ok d ->
     is_zero (0 + (c - d))%Q = false ->
     extract_moves self seq [l] s =
       Raise (UserError (NotBalanced (0 + (c - d))%Q))).
Proof.
  split.
  - intros v dbg He. unfold extract_moves in He. simpl in He.
    pose proof (split_step_first_not_only_one_line self seq s l v dbg) as Hn.
    destruct (split_step self seq (split_init s) l) as [st|e]; simpl in He.
    + by destruct (is_zero (cur_balance st)).
    + by injection He as ->.
  - intros j c d m ml Hpol Hskip Hj Hm Hml Hc Hd Hz.
    assert (exists date, getitem l "date" = Ok date) as (dt & Hdt).
    { unfold _prepare_move in Hm. bind_inv Hm. eauto. }
    assert (getitem l "journal_id" = Ok (id_val j)) as Hgj.
    { unfold getitem. by rewrite Hj. }
    assert (foldM (split_step self seq) (split_init s) [l] =
            Ok (mk_split_state [] (id_val j) (get l "move_name") dt
                  (0 + (c - d))%Q (Some (set_line_ids m [ml])) s)) as Hfold.
    { simpl. unfold split_step. rewrite Hskip. simpl.
      unfold same_move_tests. rewrite Hpol, Hgj. simpl.
      destruct (date_by_move_line self); simpl;
        rewrite ?Hdt; simpl; rewrite Hm, Hml; simpl;
        rewrite ?Hdt, ?Hgj; simpl; rewrite Hc, Hd; done. }
    unfold extract_moves. rewrite Hfold. simpl. by rewrite Hz.
Qed.

End SingleLine.

Lemma single_line_outcome_witness :
  extract_moves Examples.wizard_balanced Examples.seq
    [Examples.mk_resolved 2 1 11 100 0] Examples.no_state =
  Raise (UserError (NotBalanced (0 + (0 - 100))%Q)).
Proof.
  destruct (_prepare_move Examples.wizard_balanced
              (Examples.mk_resolved 2 1 11 100 0)) as [m|] eqn:Hm;
    [|vm_compute in Hm; discriminate].
  destruct (_prepare_move_line (Examples.mk_resolved 2 1 11 100 0)
              Examples.seq) as [ml|] eqn:Hml;
    [|vm_compute in Hml; discriminate].
  apply (proj2 (single_line_outcome Examples.wizard_balanced Examples.seq
                  (Examples.mk_resolved 2 1 11 100 0) Examples.no_state)
           1%positive 0%Q 100%Q m ml);
    try exact Hm; try exact Hml; vm_compute; reflexivity.
Defined.

(** C5 as stated fails: a pivot of one line never raises the 'only has 1
    line' error.  A line of debit 100 raises the 'not balanced' error, and a
    line of debit and credit 0 is emitted as a move of one line. *)
Lemma single_line_counterexample :
  create_moves_from_pivot Examples.wizard_balanced Examples.sd Examples.seq
    [Examples.mk_line 2 "VT" "411000" 100 0] =
    Raise (UserError (NotBalanced (0 + (0 - 100))%Q)) /\
  exists m,
    create_moves_from_pivot Examples.wizard_balanced Examples.sd Examples.seq
      [Examples.mk_line 2 "VT" "411000" 0 0] = Ok [m] /\
    length (line_ids m) = 1%nat.
Proof.
  split; [vm_compute; reflexivity|].
  eexists. split; [vm_compute; reflexivity|reflexivity].
Qed.

(** ** The move-name policy *)

Section MoveNamePolicy.
Context `{Host}.

Lemma split_step_never_error_list self seq st (l : line) e :
  split_step self seq st l <> Raise (UserError (ErrorList e)).
Proof.
  unfold split_step, is_null_line, same_move_tests, _prepare_move,
    _prepare_move_line, amount.
  paths; congruence.
Qed.

(** The errors the splitter appends to [errors['other']] are never raised:
    no run of the EXTRACT MOVES loop ends with the list of errors. *)
Lemma extract_moves_never_error_list self seq pivot s e :
  extract_moves self seq pivot s <> Raise (UserError (ErrorList e)).
Proof.
  unfold extract_moves.
  assert (forall st, foldM (split_step self seq) st pivot
                     <> Raise (UserError (ErrorList e))) as Hfold.
  { induction pivot as [|l pivot IH]; intros st; simpl; [done|].
    pose proof (split_step_never_error_list self seq st l e).
    destruct (split_step self seq st l) as [st1|e1]; simpl; [apply IH|].
    congruence. }
  specialize (Hfold (split_init s)).
  destruct (foldM _ _ _) as [st|e1]; simpl.
  - by destruct (is_zero (cur_balance st)).
  - congruence.
Qed.

End MoveNamePolicy.

(** C6 fails on the code.  With the move-name policy and two lines without
    ['move_name'] (what the generic CSV parser builds), the splitter appends
    its 'missing journal entry number' message twice to a list nobody reads
    any more, raises nothing, and emits the two lines as one move. *)
Lemma missing_move_name_ignored :
  match match_pivot Examples.sd (take 2 Examples.pivot_two_pairs)
          Examples.no_state with
  | Ok ([l1; l2], s) =>
      get l1 "move_name" = VNone /\ get l2 "move_name" = VNone /\
      match foldM (split_step Examples.wizard_move_name Examples.seq)
              (split_init s) [l1; l2],
            create_moves_from_pivot Examples.wizard_move_name Examples.sd
              Examples.seq (take 2 Examples.pivot_two_pairs)
      with
      | Ok st, Ok [m] =>
          err_other (errs (split_errors st))
            = [MissingMoveName 2; MissingMoveName 3] /\
          length (line_ids m) = 2%nat
      | _, _ => False
      end
  | _ => False
  end.
Proof. vm_compute. repeat split; reflexivity. Qed.

(** ** Reconciler *)

(** C7 fails on the code.  For a group that passes every test but has two
    different partners, building the warning joins the partner ids, which are
    not strings: [reconcile_move_lines] raises [TypeError] instead of
    skipping the group.  The same group with one partner is linked. *)
Lemma reconcile_two_partners_raises :
  reconcile_move_lines Examples.lines_two_partners =
    (mk_rec_state [] [], Some TypeError) /\
  reconcile_move_lines Examples.lines_one_partner =
    (mk_rec_state [Examples.lines_one_partner] [], None).
Proof. split; vm_compute; reflexivity. Qed.

(** ** Analytic distribution *)

Lemma split_l_no_sep sep cur l :
  Forall (fun c => c <> sep) l -> PyStr.split_l sep cur l = [rev cur ++ l].
Proof.
  revert cur. induction l as [|c l IH]; intros cur Hall; simpl.
  - by rewrite app_nil_r.
  - inversion Hall as [|? ? Hc Hl]; subst.
    destruct (Ascii.eqb_spec c sep) as [->|_]; [done|].
    rewrite IH by done. simpl. by rewrite <- app_assoc.
Qed.

Lemma split_no_sep sep s :
  Forall (fun c => c <> sep) (PyStr.chars s) -> PyStr.split sep s = [s].
Proof.
  intros Hall. unfold PyStr.split. rewrite split_l_no_sep by done.
  simpl. by rewrite string_of_list_ascii_of_string.
Qed.

Lemma truthy_str_ne s : s <> "" -> truthy (VStr s) = true.
Proof. intros Hs. simpl. by destruct s. Qed.

Lemma split_l_nonempty sep cur l : PyStr.split_l sep cur l <> [].
Proof.
  revert cur. induction l as [|c l IH]; intros cur; simpl; [done|].
  destruct (Ascii.eqb c sep); [done|apply IH].
Qed.

Lemma split_l_sep sep cur l :
  existsb (Ascii.eqb sep) l = true ->
  exists x y rest, PyStr.split_l sep cur l = x :: y :: rest.
Proof.
  revert cur. induction l as [|c l IH]; intros cur; simpl; [done|].
  rewrite (Ascii.eqb_sym sep c).
  destruct (Ascii.eqb c sep); simpl.
  - intros _. pose proof (split_l_nonempty sep [] l) as Hne.
    destruct (PyStr.split_l sep [] l) as [|y rest]; [done|]. eauto.
  - apply IH.
Qed.

Lemma has_colon_false seg :
  has_colon seg = false -> PyStr.split ":" seg = [seg].
Proof.
  unfold has_colon. intros Hno. apply split_no_sep.
  apply Forall_forall. intros c Hin ->.
  assert (existsb (Ascii.eqb ":") (PyStr.chars seg) = true); [|congruence].
  apply existsb_exists. exists ":"%char. split; [|done].
  by apply list_elem_of_In.
Qed.

Lemma has_colon_true seg :
  has_colon seg = true ->
  exists x y rest, PyStr.split ":" seg = x :: y :: rest.
Proof.
  unfold has_colon, PyStr.split. intros Hc.
  destruct (split_l_sep ":" [] _ Hc) as (x & y & rest & ->).
  csimpl. eauto.
Qed.

Lemma dist_set_get id pct d :
  dist_get id (dist_set id pct d) = Some pct.
Proof.
  induction d as [|[i p] d IH]; simpl.
  - by rewrite Pos.eqb_refl.
  - destruct (Pos.eqb i id) eqn:Hi; simpl; by rewrite Hi.
Qed.

Lemma dist_set_get_ne id id' pct d :
  id <> id' -> dist_get id' (dist_set id pct d) = dist_get id' d.
Proof.
  intros Hne. induction d as [|[i p] d IH]; simpl.
  - destruct (Pos.eqb_spec id id'); [done|done].
  - destruct (Pos.eqb_spec i id) as [->|Hi]; simpl.
    + by destruct (Pos.eqb_spec id id').
    + by rewrite IH.
Qed.

Lemma dist_set_keys_in id pct d k :
  k ∈ (dist_set id pct d).*1 -> k ∈ d.*1 \/ k = id.
Proof.
  induction d as [|[i p] d IH]; simpl.
  - rewrite list_elem_of_singleton. auto.
  - destruct (Pos.eqb i id); simpl; [auto|].
    rewrite !elem_of_cons. intros [->|Hin]; [auto|].
    destruct (IH Hin); auto.
Qed.

Lemma dist_set_NoDup id pct d : NoDup d.*1 -> NoDup (dist_set id pct d).*1.
Proof.
  induction d as [|[i p] d IH]; simpl; intros Hnd.
  - apply NoDup_singleton.
  - inversion Hnd as [|? ? Hnot Hrest]; subst.
    destruct (Pos.eqb_spec i id) as [->|Hi]; simpl.
    + by constructor.
    + constructor; [|by apply IH].
      intros Hin. apply dist_set_keys_in in Hin as [Hin| ->]; done.
Qed.

Lemma dist_get_is_Some id d : is_Some (dist_get id d) <-> id ∈ d.*1.
Proof.
  induction d as [|[i p] d IH]; simpl.
  - split; [by intros [? ?]|by intros ?%elem_of_nil].
  - rewrite elem_of_cons. destruct (Pos.eqb_spec i id) as [->|Hi]; simpl.
    + split; [by left|eauto].
    + rewrite IH. split; [by right|]. by intros [->|?].
Qed.

Lemma py_eq_VStr c t : py_eq c (VStr t) = true -> c = VStr t.
Proof.
  destruct c; simpl; try done.
  by intros ->%String.eqb_eq.
Qed.

Lemma bucket_lines_add_ne code code' n b :
  code' <> code ->
  bucket_lines (VStr code) (bucket_add (VStr code') n b) =
  bucket_lines (VStr code) b.
Proof.
  intros Hne.
  assert (py_eq (VStr code') (VStr code) = false) as Hcc.
  { simpl. by apply String.eqb_neq. }
  induction b as [|[c ns] b IH]; simpl.
  - by rewrite Hcc.
  - destruct (py_eq c (VStr code')) eqn:Hc; simpl.
    + apply py_eq_VStr in Hc as ->. by rewrite Hcc.
    + by rewrite IH.
Qed.

Lemma fold_add_other es s :
  errs (fold_left (fun s e => add_other e s) es s) =
  mk_errors (err_other (errs s) ++ es) (err_journal (errs s))
    (err_account (errs s)) (err_partner (errs s)) (err_analytic (errs s)) /\
  rlog (fold_left (fun s e => add_other e s) es s) = rlog s.
Proof.
  revert s. induction es as [|e es IH]; intros s; simpl.
  - rewrite app_nil_r. by destruct s as [[]].
  - destruct (IH (add_other e s)) as [-> ->]. simpl.
    by rewrite <- app_assoc.
Qed.

Section Analytic.
Context `{Host}.

Lemma match_ana_entry_segment sd n st entry :
  match_ana_entry sd n st entry =
  if String.eqb (PyStr.strip entry) "" then st
  else record_segment sd n st (PyStr.strip entry).
Proof.
  destruct st as [dist s]. unfold match_ana_entry. cbn [truthy].
  destruct (String.eqb (PyStr.strip entry) ""); cbn [negb]; [done|].
  unfold record_segment, analytic_id, percentage, pct_errors, sub_code,
    pct_text.
  destruct (has_colon (PyStr.strip entry)) eqn:Hc.
  - destruct (has_colon_true _ Hc) as (x & y & rest & ->).
    destruct (py_float _) as [p|]; cbn [default fold_left].
    + by destruct (float_lt p (Finite 0) || float_gt p (Finite 100)).
    + reflexivity.
  - rewrite (has_colon_false _ Hc), PyStrFacts.strip_idem. reflexivity.
Qed.

Lemma fold_ana_segments sd n entries st :
  fold_left (match_ana_entry sd n) entries st =
  fold_left (record_segment sd n)
    (List.filter (fun seg => negb (String.eqb seg ""))
       (PyStr.strip <$> entries)) st.
Proof.
  revert st. induction entries as [|entry entries IH]; intros st; [done|].
  cbn [fold_left]. rewrite fmap_cons. cbn [List.filter].
  rewrite match_ana_entry_segment.
  destruct (String.eqb (PyStr.strip entry) ""); cbn [negb fold_left];
    apply IH.
Qed.

Lemma fold_segments_spec sd n segs s dist s' :
  fold_left (record_segment sd n) segs ([], s) = (dist, s') ->
  NoDup dist.*1 /\
  (forall id,
     dist_get id dist =
     percentage <$>
       last (filter (fun seg => analytic_id sd seg = Some id) segs)) /\
  err_other (errs s') =
    err_other (errs s) ++ concat (pct_errors n <$> segs) /\
  (forall code,
     bucket_lines (VStr code) (err_analytic (errs s')) =
     bucket_lines (VStr code) (err_analytic (errs s)) ++
     ((fun _ => n) <$>
        filter (fun seg => sub_code seg = code /\ analytic_id sd seg = None)
          segs)) /\
  err_journal (errs s') = err_journal (errs s) /\
  err_account (errs s') = err_account (errs s) /\
  err_partner (errs s') = err_partner (errs s) /\
  rlog s' = rlog s.
Proof.
  revert dist s'. induction segs as [|seg segs IH] using rev_ind;
    intros dist s'.
  - intros [= <- <-]. cbn. rewrite !app_nil_r.
    repeat split; try done; [constructor|intros; by rewrite app_nil_r].
  - rewrite fold_left_app. cbn [fold_left].
    destruct (fold_left (record_segment sd n) segs ([], s)) as [d1 s1].
    destruct (IH d1 s1 eq_refl)
      as (Hnd & Hget & Hother & Hana & Hj & Hacc & Hp & Hlog).
    unfold record_segment.
    destruct (fold_add_other (pct_errors n seg) s1) as [Herrs Hrlog].
    rewrite fmap_app, concat_app. cbn [fmap list_fmap concat].
    rewrite app_nil_r, app_assoc, <- Hother.
    destruct (analytic_id sd seg) as [id0|] eqn:Hid.
    + intros [= <- <-]. rewrite Herrs, Hrlog. cbn.
      split; [by apply dist_set_NoDup|]. split; [|split; [done|split]].
      * intros id. rewrite filter_app.
        destruct (decide (id0 = id)) as [->|Hne].
        -- rewrite filter_cons_True, filter_nil by done.
           by rewrite last_snoc, dist_set_get.
        -- rewrite filter_cons_False, filter_nil, app_nil_r by congruence.
           by rewrite dist_set_get_ne.
      * intros code. rewrite filter_app, filter_cons_False, filter_nil,
          app_nil_r by (intros [_ ?]; congruence).
        apply Hana.
      * done.
    + intros [= <- <-]. unfold add_analytic_error. cbn.
      rewrite Herrs, Hrlog. cbn.
      split; [done|]. split; [|split; [done|split]].
      * intros id.
        rewrite filter_app, filter_cons_False, filter_nil, app_nil_r
          by congruence.
        apply Hget.
      * intros code. rewrite filter_app.
        destruct (decide (sub_code seg = code)) as [<-|Hne].
        -- rewrite filter_cons_True, filter_nil by done.
           rewrite bucket_lines_add by apply py_eq_str_refl.
           rewrite Hana, fmap_app, app_assoc. done.
        -- rewrite filter_cons_False, filter_nil, app_nil_r
             by (by intros [? _]).
           rewrite bucket_lines_add_ne by done. apply Hana.
      * done.
Qed.

(** C8, as the code has it.  The analytic field of a line is cut at
    every ['|'] into its [segments].  The distribution the line gets is a
    dict with one entry for the analytic account of each segment whose
    sub-code is a code of the directory, and no other entry; the entry of an
    account holds the [percentage] of the last segment that names it: 100
    for a segment without [':'], 1 when the text after the last [':'] is not
    a number, and the number read otherwise, also when it is below 0 or
    above 100.  The errors of the segments are recorded and the loop goes
    on: under 'other', in the order of the segments, one message per
    percentage that is not a number or is a number below 0 or above 100
    ([pct_errors]); under the sub-code in [errors['analytic']], the line
    number once per segment whose sub-code is not a code of the
    directory. *)
Theorem analytic_entry_rule sd n (l : line) s a :
  l !! "analytic" = Some (VStr a) ->
  a <> "" ->
  exists dist s',
    match_analytic sd n l s =
      Ok (<["analytic_distribution" := VDist dist]> l, s') /\
    NoDup dist.*1 /\
    (forall id,
       id ∈ dist.*1 <->
       exists seg, seg ∈ segments a /\ analytic_id sd seg = Some id) /\
    (forall id,
       dist_get id dist =
       percentage <$>
         last (filter (fun seg => analytic_id sd seg = Some id)
                 (segments a))) /\
    err_other (errs s') =
      err_other (errs s) ++ concat (pct_errors n <$> segments a) /\
    (forall code,
       bucket_lines (VStr code) (err_analytic (errs s')) =
       bucket_lines (VStr code) (err_analytic (errs s)) ++
       ((fun _ => n) <$>
          filter (fun seg => sub_code seg = code /\
                             analytic_id sd seg = None) (segments a))) /\
    err_journal (errs s') = err_journal (errs s) /\
    err_account (errs s') = err_account (errs s) /\
    err_partner (errs s') = err_partner (errs s).
Proof.
  intros Ha Hne. unfold match_analytic, get. rewrite Ha. cbn [default id].
  rewrite (truthy_str_ne _ Hne), fold_ana_segments. fold (segments a).
  destruct (fold_left (record_segment sd n) (segments a) ([], s))
    as [dist s'] eqn:Hfold.
  destruct (fold_segments_spec sd n _ s dist s' Hfold)
    as (Hnd & Hget & Hother & Hana & Hj & Hacc & Hp & _).
  exists dist, s'. split; [done|]. split; [done|].
  split; [|by repeat split].
  intros id. rewrite <- dist_get_is_Some, Hget, fmap_is_Some, last_is_Some.
  split.
  - intros Hnil.
    destruct (filter _ (segments a)) as [|seg rest] eqn:Hf; [done|].
    assert (seg ∈ filter (fun seg => analytic_id sd seg = Some id)
                    (segments a)) as Hin
      by (rewrite Hf; apply elem_of_cons; by left).
    apply list_elem_of_filter in Hin as [? ?]. eauto.
  - intros (seg & Hin & Hid) Hnil.
    assert (seg ∈ filter (fun seg => analytic_id sd seg = Some id)
                    (segments a)) as Hin'
      by (by apply list_elem_of_filter).
    rewrite Hnil in Hin'. by apply elem_of_nil in Hin'.
Qed.

End Analytic.

Lemma analytic_entry_rule_witness :
  let l := <["analytic" := VStr "ADM:30| SUPP:nan |XX:abc|ADM:150"]>
             (Examples.mk_line 2 "VT" "6110" 10 0) in
  exists dist s',
    match_analytic Examples.sd 2 l Examples.no_state =
      Ok (<["analytic_distribution" := VDist dist]> l, s') /\
    dist_get 20 dist = Some (Finite (150 # 1)) /\
    dist_get 21 dist = Some NaN /\
    err_other (errs s') =
      [WrongPctNotNumber 2 "abc"; WrongPctRange 2 "150"] /\
    bucket_lines (VStr "XX") (err_analytic (errs s')) = [2].
Proof.
  intros l.
  destruct (analytic_entry_rule Examples.sd 2 l Examples.no_state
              "ADM:30| SUPP:nan |XX:abc|ADM:150" eq_refl ltac:(discriminate))
    as (dist & s' & Hm & _ & _ & Hget & Hother & Hana & _).
  exists dist, s'. split; [exact Hm|].
  rewrite !Hget, Hother, Hana. vm_compute. repeat split; reflexivity.
Defined.

(** C8 as stated fails for a percentage outside [0, 100]: the error is
    recorded but the percentage is not replaced by 1.  ["ADM:150"] puts 150
    in the distribution; only a text that is not a number, as in ["ADM:x"],
    counts as 1. *)
Lemma analytic_percentage_counterexample :
  match match_analytic Examples.sd 2
          (<["analytic" := VStr "ADM:150"]>
             (Examples.mk_line 2 "VT" "6110" 10 0)) Examples.no_state,
        match_analytic Examples.sd 2
          (<["analytic" := VStr "ADM:x"]>
             (Examples.mk_line 2 "VT" "6110" 10 0)) Examples.no_state
  with
  | Ok (l1, s1), Ok (l2, s2) =>
      l1 !! "analytic_distribution" =
        Some (VDist [(20%positive, Finite (150 # 1))]) /\
      err_other (errs s1) = [WrongPctRange 2 "150"] /\
      l2 !! "analytic_distribution" =
        Some (VDist [(20%positive, Finite (1 # 1))]) /\
      err_other (errs s2) = [WrongPctNotNumber 2 "x"]
  | _, _ => False
  end.
Proof. vm_compute. repeat split; reflexivity. Qed.

(** * Further properties of the code *)

(** ** Normalizer, field by field *)

(** After [clean_strip_pivot] the pivot has the same lines with the same
    keys; every value is [False] or a truthy value, and a string value is
    non-empty and has no leading or trailing white space. *)
Theorem clean_strip_pivot_values (pivot : list line) :
  length (clean_strip_pivot pivot) = length pivot /\
  Forall2 (fun l l' : line => dom l' = dom l) pivot (clean_strip_pivot pivot) /\
  Forall (fun l : line => forall k v, l !! k = Some v ->
            v = VBool false \/
            (truthy v = true /\
             forall s, v = VStr s -> s <> "" /\ PyStr.strip s = s))
    (clean_strip_pivot pivot).
Proof.
  unfold clean_strip_pivot. split; [by rewrite length_fmap|]. split.
  - induction pivot as [|l pivot IH]; csimpl; constructor; [|done].
    apply dom_fmap_L.
  - apply Forall_fmap, Forall_forall. intros l _ k v. simpl.
    rewrite lookup_fmap. destruct (l !! k) as [w|]; [|done].
    simpl. intros [= <-]. unfold clean_value.
    destruct (truthy w) eqn:Hw; [|by left].
    destruct w; try (right; split; [done|]; by intros s' [=]).
    destruct (truthy (VStr (PyStr.strip s))) eqn:Hs; [|by left].
    right. split; [done|]. intros s' [= <-]. split.
    + intros Hempty. rewrite Hempty in Hs. done.
    + apply PyStrFacts.strip_idem.
Qed.

Lemma forced_value_journal self :
  forced_value self "journal" =
  match force_journal_id self with
  | Some code => if truthy (VStr code) then VStr code else VBool false
  | None => VBool false
  end.
Proof. reflexivity. Qed.

Lemma forced_value_date self :
  forced_value self "date" = date_val (force_move_date self).
Proof. reflexivity. Qed.

Lemma forced_value_name self :
  forced_value self "name" = char_val (force_move_line_name self).
Proof. reflexivity. Qed.

Lemma forced_value_ref self :
  forced_value self "ref" = char_val (force_move_ref self).
Proof. reflexivity. Qed.

Lemma updated_field_amount self k (o : option pyval) :
  k = "credit" \/ k = "debit" ->
  updated_field self k o = (fun v => if truthy v then v else VFloat (Finite 0)) <$> o.
Proof. by intros [->| ->]. Qed.

(** What [update_pivot] guarantees on every line it returns: a forced
    journal, date, label or reference is the value of the field; debit and
    credit are present and are [0.0] or a truthy value; and a field that is
    neither forced nor an amount is as it was. *)
Theorem update_pivot_fields self (pivot pivot' : list line) :
  update_pivot self pivot = Ok pivot' ->
  Forall2 (fun l l' : line =>
    (forall code, force_journal_id self = Some code -> code <> "" ->
       l' !! "journal" = Some (VStr code)) /\
    (forall y m d, force_move_date self = Some (y, m, d) ->
       l' !! "date" = Some (VDate (PyDate y m d))) /\
    (forall name, force_move_line_name self = Some name -> name <> "" ->
       l' !! "name" = Some (VStr name)) /\
    (forall ref, force_move_ref self = Some ref -> ref <> "" ->
       l' !! "ref" = Some (VStr ref)) /\
    (forall k, k = "credit" \/ k = "debit" ->
       exists v, l' !! k = Some v /\ (v = VFloat (Finite 0) \/ truthy v = true)) /\
    (forall k, truthy (forced_value self k) = false ->
       k <> "credit" -> k <> "debit" -> l' !! k = l !! k))
    pivot pivot'.
Proof.
  unfold update_pivot. revert pivot'.
  induction pivot as [|l pivot IH]; intros pivot'; cbn [mapM].
  - intros [= <-]. constructor.
  - intros Hp. apply bind_Ok in Hp as (l' & Hl & Hp).
    apply bind_Ok in Hp as (ls & Hls & Hp). injection Hp as <-.
    constructor; [|by apply IH].
    pose proof (update_line_lookup self l l') as Hlook.
    destruct (update_line_Ok_is_Some _ _ _ Hl) as [[c Hc] [d Hd]].
    split; [|split; [|split; [|split; [|split]]]].
    + intros code Hcode Hne. rewrite (Hlook _ Hl). unfold updated_field.
      rewrite forced_value_journal, Hcode, (truthy_str_ne _ Hne).
      by rewrite (truthy_str_ne _ Hne).
    + intros y m d0 Hdate. rewrite (Hlook _ Hl). unfold updated_field.
      by rewrite forced_value_date, Hdate.
    + intros name Hname Hne. rewrite (Hlook _ Hl). unfold updated_field.
      rewrite forced_value_name, Hname. cbn [char_val].
      by rewrite (truthy_str_ne _ Hne).
    + intros ref Href Hne. rewrite (Hlook _ Hl). unfold updated_field.
      rewrite forced_value_ref, Href. cbn [char_val].
      by rewrite (truthy_str_ne _ Hne).
    + intros k Hk. rewrite (Hlook _ Hl), (updated_field_amount _ _ _ Hk).
      destruct Hk as [->| ->]; rewrite ?Hc, ?Hd; cbn [fmap option_fmap option_map].
      * destruct (truthy c) eqn:Ht; eauto.
      * destruct (truthy d) eqn:Ht; eauto.
    + intros k Hf Hc' Hd'. rewrite (Hlook _ Hl). unfold updated_field.
      rewrite Hf. case_decide as Hor; [by destruct Hor|done].
Qed.

Lemma update_pivot_fields_witness :
  match update_pivot Examples.wizard_forced
          [Examples.mk_line 2 "VT" "411000" 0 (25 # 2)] with
  | Ok pivot' =>
      Forall (fun l' : line => l' !! "journal" = Some (VStr "BQ")) pivot'
  | Raise _ => False
  end.
Proof.
  destruct (update_pivot Examples.wizard_forced
              [Examples.mk_line 2 "VT" "411000" 0 (25 # 2)])
    as [pivot'|e] eqn:Hp.
  - pose proof (update_pivot_fields _ _ _ Hp) as Hall.
    apply Forall2_Forall_r with (1 := Hall). apply Forall_forall.
    intros l _ l' (Hj & _). by apply Hj.
  - apply (f_equal (fun r => match r with Ok _ => true | Raise _ => false end))
      in Hp.
    vm_compute in Hp. discriminate Hp.
Defined.

(** ** Lines that passed the validation gate *)

Ltac keep_key :=
  intros; simplify_eq; try done;
  repeat (rewrite lookup_insert_ne by done); try done.

Section Resolved.
Context `{Host}.

Lemma match_account_keeps sd n (l : line) s l' s' k :
  match_account sd n l s = Ok (l', s') -> k <> "account_id" ->
  l' !! k = l !! k.
Proof. unfold match_account. paths; keep_key. Qed.

Lemma match_partner_keeps sd n (l : line) s l' s' k :
  match_partner sd n l s = Ok (l', s') -> k <> "partner_id" ->
  l' !! k = l !! k.
Proof. unfold match_partner. paths; keep_key. Qed.

Lemma match_journal_keeps sd n (l : line) s l' s' k :
  match_journal sd n l s = Ok (l', s') -> k <> "journal_id" ->
  l' !! k = l !! k.
Proof. unfold match_journal. paths; keep_key. Qed.

Lemma match_analytic_keeps sd n (l : line) s l' s' k :
  match_analytic sd n l s = Ok (l', s') -> k <> "analytic_distribution" ->
  l' !! k = l !! k.
Proof.
  unfold match_analytic. destruct (truthy (get l "analytic")); [|keep_key].
  destruct (get l "analytic"); try done.
  destruct (fold_left _ _ _). keep_key.
Qed.

Lemma check_date_keeps n (l : line) s k :
  k <> "date" -> (check_date n l s).1 !! k = l !! k.
Proof.
  unfold check_date. intros Hk.
  destruct (negb (truthy (get l "date"))); [done|].
  destruct (get l "date"); try done.
  destruct (strptime s0 "%Y-%m-%d") as [[[y m] d]|]; [|done].
  cbn [fst]. by rewrite lookup_insert_ne.
Qed.

Lemma match_account_clean sd n (l : line) s l' s' :
  match_account sd n l s = Ok (l', s') ->
  count_errors (errs s') = count_errors (errs s) ->
  truthy (get l' "account_id") = true.
Proof.
  unfold match_account. paths; intros; simplify_eq;
    rewrite ?count_add_account_error, ?count_add_log in *; try lia;
    rewrite ?get_insert_eq; try done;
    by repeat match goal with
              | Hn : negb (truthy ?v) = false |- _ =>
                  apply negb_false_iff in Hn
              end.
Qed.

Lemma get_VStr (l : line) key code :
  get l key = VStr code -> l !! key = Some (VStr code).
Proof. unfold get. destruct (l !! key); simpl; congruence. Qed.

Lemma lookup_code_Some d v id :
  lookup_code d v = Ok (Some id) ->
  exists code, v = VStr code /\ assoc code d = Some id.
Proof. destruct v; simpl; intros; simplify_eq. eauto. Qed.

Lemma match_partner_clean sd n (l : line) s l' s' :
  match_partner sd n l s = Ok (l', s') ->
  count_errors (errs s') = count_errors (errs s) ->
  truthy (get l "partner") = true ->
  exists code partner_id,
    l !! "partner" = Some (VStr code) /\
    assoc code (sd_partner sd) = Some partner_id /\
    l' !! "partner_id" = Some (id_val partner_id).
Proof.
  unfold match_partner. intros Hm Hc Ht. rewrite Ht in Hm.
  apply bind_Ok in Hm as (r & Hr & Hm).
  destruct r as [pid|]; injection Hm as <- <-.
  - apply lookup_code_Some in Hr as (code & Hg & Ha).
    exists code, pid. split; [by apply get_VStr|]. split; [done|].
    by rewrite lookup_insert_eq.
  - rewrite count_add_partner_error in Hc. lia.
Qed.

Lemma match_journal_clean sd n (l : line) s l' s' :
  match_journal sd n l s = Ok (l', s') ->
  count_errors (errs s') = count_errors (errs s) ->
  exists code journal_id,
    l !! "journal" = Some (VStr code) /\
    assoc code (sd_journal sd) = Some journal_id /\
    l' !! "journal_id" = Some (id_val journal_id).
Proof.
  unfold match_journal, getitem. intros Hm Hc.
  destruct (l !! "journal") as [v|] eqn:Hv; [|done].
  apply bind_Ok in Hm as (v' & [= <-] & Hm).
  apply bind_Ok in Hm as (r & Hr & Hm).
  destruct r as [jid|]; injection Hm as <- <-.
  - apply lookup_code_Some in Hr as (code & -> & Ha).
    exists code, jid. split; [done|]. split; [done|].
    by rewrite lookup_insert_eq.
  - rewrite count_add_journal_error in Hc. lia.
Qed.

Lemma get_not_None (l : line) key v :
  get l key = v -> v <> VNone -> l !! key = Some v.
Proof. unfold get. destruct (l !! key); simpl; congruence. Qed.

Lemma check_date_clean n (l : line) s :
  count_errors (errs (check_date n l s).2) = count_errors (errs s) ->
  exists d, (check_date n l s).1 !! "date" = Some (VDate d).
Proof.
  unfold check_date.
  destruct (negb (truthy (get l "date"))).
  { cbn [snd]. rewrite count_add_other. lia. }
  destruct (get l "date") as [|b|z|q|str|d|ds] eqn:Hg; cbn [fst snd];
    try (rewrite count_add_other; lia).
  - destruct (strptime str "%Y-%m-%d") as [[[y m] d]|]; cbn [fst snd].
    + intros _. rewrite lookup_insert_eq. eauto.
    + rewrite count_add_other. lia.
  - intros _. exists d. by apply get_not_None.
Qed.

Lemma check_amount_clean key mk n (l : line) s s' :
  check_amount key mk n l s = Ok s' ->
  count_errors (errs s') = count_errors (errs s) ->
  is_Some (as_float (get l key)).
Proof.
  unfold check_amount. destruct (as_float (get l key)); [eauto|].
  intros Hm Hc. apply bind_Ok in Hm as (v & _ & Hm). injection Hm as <-.
  rewrite count_add_other in Hc. lia.
Qed.

Lemma pct_errors_any n n' seg :
  pct_errors n seg = [] -> pct_errors n' seg = [].
Proof.
  unfold pct_errors. destruct (pct_text seg); [|done].
  destruct (py_float _); [|done]. by destruct (_ || _).
Qed.

Lemma record_segment_count sd n d s seg :
  (count_errors (errs s) <=
   count_errors (errs (record_segment sd n (d, s) seg).2))%nat /\
  (count_errors (errs (record_segment sd n (d, s) seg).2) =
   count_errors (errs s) ->
   is_Some (analytic_id sd seg) /\ forall n', pct_errors n' seg = []).
Proof.
  unfold record_segment.
  destruct (fold_add_other (pct_errors n seg) s) as [He _].
  assert (count_errors
            (errs (fold_left (fun s e => add_other e s) (pct_errors n seg) s))
          = (count_errors (errs s) + length (pct_errors n seg))%nat) as Hc.
  { unfold count_errors. rewrite He. cbn. rewrite length_app. lia. }
  destruct (analytic_id sd seg) as [id|]; cbn [snd].
  - rewrite Hc. split; [lia|]. intros Hz. split; [eauto|].
    intros n'. apply (pct_errors_any n).
    destruct (pct_errors n seg); [done|]. simpl in Hz. lia.
  - rewrite count_add_analytic_error, Hc. split; [lia|]. intros Hz. lia.
Qed.

Lemma fold_segments_count sd n segs d s :
  (count_errors (errs s) <=
   count_errors (errs (fold_left (record_segment sd n) segs (d, s)).2))%nat /\
  (count_errors (errs (fold_left (record_segment sd n) segs (d, s)).2) =
   count_errors (errs s) ->
   Forall (fun seg => is_Some (analytic_id sd seg) /\
                      forall n', pct_errors n' seg = []) segs).
Proof.
  revert d s. induction segs as [|seg segs IH]; intros d s; cbn [fold_left].
  - split; [done|]. constructor.
  - destruct (record_segment_count sd n d s seg) as [Hle Hz].
    destruct (record_segment sd n (d, s) seg) as [d1 s1]. cbn [snd] in *.
    destruct (IH d1 s1) as [Hle' Hz']. split; [lia|]. intros Heq.
    constructor; [apply Hz; lia|apply Hz'; lia].
Qed.

Lemma match_analytic_clean sd n (l : line) s l' s' :
  match_analytic sd n l s = Ok (l', s') ->
  count_errors (errs s') = count_errors (errs s) ->
  truthy (get l "analytic") = true ->
  exists a,
    l !! "analytic" = Some (VStr a) /\
    Forall (fun seg => is_Some (analytic_id sd seg) /\
                       forall n', pct_errors n' seg = []) (segments a).
Proof.
  unfold match_analytic. intros Hm Hc Ht. rewrite Ht in Hm.
  destruct (get l "analytic") as [| | | |a| |] eqn:Hg; try done.
  rewrite fold_ana_segments in Hm. fold (segments a) in Hm.
  destruct (fold_segments_count sd n (segments a) [] s) as [_ Hz].
  destruct (fold_left _ _ _) as [d1 s1]. injection Hm as <- <-.
  exists a. split; [|by apply Hz].
  unfold get in Hg. by destruct (l !! "analytic") as [v|]; simplify_eq/=.
Qed.

Lemma same_growth_le s s' t t' :
  same_growth s s' t t' ->
  (count_errors (errs s) <= count_errors (errs s'))%nat.
Proof. intros (k & Hk & _). lia. Qed.

Lemma check_line_number_Ok (l : line) n :
  check_line_number l = Ok n -> as_int (get l "line") = Some n /\ n <> 0.
Proof.
  unfold check_line_number.
  destruct (truthy (get l "line")) eqn:Ht; [|done].
  destruct (as_int (get l "line")) as [m|] eqn:Hm; [|done].
  intros [= <-]. split; [done|]. intros ->.
  destruct (get l "line") as [|b|z|q|str|d|ds]; simplify_eq/=.
Qed.

Lemma match_line_clean sd (l : line) s l' s' :
  match_line sd l s = Ok (l', s') ->
  count_errors (errs s') = count_errors (errs s) ->
  resolved_line sd l l'.
Proof.
  unfold match_line. intros Hl Hcount.
  apply bind_Ok in Hl as (n & Hn & Hl).
  apply bind_Ok in Hl as ([l1 s1] & H1 & Hl).
  apply bind_Ok in Hl as ([l2 s2] & H2 & Hl).
  apply bind_Ok in Hl as ([l3 s3] & H3 & Hl).
  apply bind_Ok in Hl as ([l4 s4] & H4 & Hl).
  pose proof (check_date_growth n l4 s4 s4) as [_ G5].
  pose proof (check_date_keeps n l4 s4) as K5.
  pose proof (check_date_clean n l4 s4) as C5.
  destruct (check_date n l4 s4) as [l5 s5]. cbn [fst snd] in *.
  apply bind_Ok in Hl as (s6 & H6 & Hl).
  apply bind_Ok in Hl as (s7 & H7 & Hl). injection Hl as <- <-.
  destruct (match_account_growth _ _ _ _ s _ _ H1) as (? & ? & G1).
  destruct (match_partner_growth _ _ _ _ s1 _ _ H2) as (? & ? & G2).
  destruct (match_analytic_growth _ _ _ _ s2 _ _ H3) as (? & ? & G3).
  destruct (match_journal_growth _ _ _ _ s3 _ _ H4) as (? & ? & G4).
  destruct (check_amount_growth _ _ _ _ _ s5 _ H6) as (? & ? & G6).
  destruct (check_amount_growth _ _ _ _ _ s6 _ H7) as (? & ? & G7).
  apply same_growth_le in G1, G2, G3, G4, G5, G6, G7.
  assert (count_errors (errs s1) = count_errors (errs s)) as E1 by lia.
  assert (count_errors (errs s2) = count_errors (errs s1)) as E2 by lia.
  assert (count_errors (errs s3) = count_errors (errs s2)) as E3 by lia.
  assert (count_errors (errs s4) = count_errors (errs s3)) as E4 by lia.
  assert (count_errors (errs s5) = count_errors (errs s4)) as E5 by lia.
  assert (count_errors (errs s6) = count_errors (errs s5)) as E6 by lia.
  assert (count_errors (errs s7) = count_errors (errs s6)) as E7 by lia.
  pose proof (match_account_keeps _ _ _ _ _ _ "journal" H1 ltac:(done)) as Kj1.
  pose proof (match_partner_keeps _ _ _ _ _ _ "journal" H2 ltac:(done)) as Kj2.
  pose proof (match_analytic_keeps _ _ _ _ _ _ "journal" H3 ltac:(done)) as Kj3.
  pose proof (match_account_keeps _ _ _ _ _ _ "partner" H1 ltac:(done)) as Kp1.
  pose proof (match_account_clean _ _ _ _ _ _ H1 E1) as A1.
  destruct (match_journal_clean _ _ _ _ _ _ H4 E4) as (jc & jid & Hj & Hja & Hji).
  destruct (C5 E5) as (d & Hd).
  pose proof (check_amount_clean _ _ _ _ _ _ H6 E6) as Hcr.
  pose proof (check_amount_clean _ _ _ _ _ _ H7 E7) as Hdb.
  apply check_line_number_Ok in Hn as [Hn Hn0].
  assert (forall k, k <> "account_id" -> k <> "partner_id" ->
                    k <> "analytic_distribution" -> k <> "journal_id" ->
                    k <> "date" -> l5 !! k = l !! k) as Kall.
  { intros k ? ? ? ? ?. rewrite K5 by done.
    rewrite (match_journal_keeps _ _ _ _ _ _ k H4) by done.
    rewrite (match_analytic_keeps _ _ _ _ _ _ k H3) by done.
    rewrite (match_partner_keeps _ _ _ _ _ _ k H2) by done.
    by rewrite (match_account_keeps _ _ _ _ _ _ k H1). }
  unfold resolved_line.
  split; [|split; [|split; [|split; [|split; [|split; [|split]]]]]].
  - exists jc, jid. split; [|split; [done|]].
    + by rewrite <- Kj1, <- Kj2, <- Kj3.
    + by rewrite K5.
  - unfold get in *. rewrite K5 by done.
    rewrite (match_journal_keeps _ _ _ _ _ _ _ H4) by done.
    rewrite (match_analytic_keeps _ _ _ _ _ _ _ H3) by done.
    by rewrite (match_partner_keeps _ _ _ _ _ _ _ H2).
  - eauto.
  - done.
  - done.
  - exists n. unfold get in *. by rewrite Kall.
  - intros Hp. unfold get in Hp. rewrite <- Kp1 in Hp.
    destruct (match_partner_clean _ _ _ _ _ _ H2 E2 Hp)
      as (pc & pid & Hpc & Hpa & Hpi).
    exists pc, pid. split; [by rewrite <- Kp1|]. split; [done|].
    rewrite K5 by done.
    rewrite (match_journal_keeps _ _ _ _ _ _ _ H4) by done.
    by rewrite (match_analytic_keeps _ _ _ _ _ _ _ H3).
  - intros Ha.
    assert (l2 !! "analytic" = l !! "analytic") as Ka.
    { rewrite (match_partner_keeps _ _ _ _ _ _ _ H2) by done.
      by rewrite (match_account_keeps _ _ _ _ _ _ _ H1). }
    unfold get in Ha. rewrite <- Ka in Ha.
    destruct (match_analytic_clean _ _ _ _ _ _ H3 E3 Ha) as (a & Hla & Hall).
    exists a. by rewrite <- Ka.
Qed.

(** The resolver only writes its own keys: every other field of a line
    comes out of the MATCHES + CHECKS loop as it went in. *)
Theorem resolver_keeps_fields sd (pivot pivot' : list line) s s' :
  match_pivot sd pivot s = Ok (pivot', s') ->
  Forall2 (fun l l' : line =>
             forall k, k ∉ resolver_keys -> l' !! k = l !! k) pivot pivot'.
Proof.
  revert s pivot' s'.
  induction pivot as [|l pivot IH]; intros s pivot' s'; cbn [match_pivot].
  - intros [= <- <-]. constructor.
  - intros Hp. apply bind_Ok in Hp as ([l1 s1] & Hl & Hp).
    apply bind_Ok in Hp as ([ls s2] & Hls & Hp). injection Hp as <- <-.
    constructor; [|by eapply IH].
    intros k Hk. unfold resolver_keys in Hk.
    rewrite !not_elem_of_cons in Hk. destruct Hk as (Hk1&Hk2&Hk3&Hk4&Hk5&_).
    unfold match_line in Hl.
    apply bind_Ok in Hl as (n & Hn & Hl).
    apply bind_Ok in Hl as ([l1' s1'] & E1 & Hl).
    apply bind_Ok in Hl as ([l2 s2'] & E2 & Hl).
    apply bind_Ok in Hl as ([l3 s3] & E3 & Hl).
    apply bind_Ok in Hl as ([l4 s4] & E4 & Hl).
    pose proof (check_date_keeps n l4 s4 k ltac:(done)) as K5.
    destruct (check_date n l4 s4) as [l5 s5]. cbn [fst] in K5.
    apply bind_Ok in Hl as (s6 & E6 & Hl).
    apply bind_Ok in Hl as (s7 & E7 & Hl). injection Hl as <- <-.
    rewrite K5.
    rewrite (match_journal_keeps _ _ _ _ _ _ k E4) by done.
    rewrite (match_analytic_keeps _ _ _ _ _ _ k E3) by done.
    rewrite (match_partner_keeps _ _ _ _ _ _ k E2) by done.
    by rewrite (match_account_keeps _ _ _ _ _ _ k E1).
Qed.

Lemma match_pivot_clean sd pivot s pivot' s' :
  errors_wf (errs s) ->
  match_pivot sd pivot s = Ok (pivot', s') ->
  count_errors (errs s') = count_errors (errs s) ->
  Forall2 (resolved_line sd) pivot pivot'.
Proof.
  revert s pivot' s'.
  induction pivot as [|l pivot IH]; intros s pivot' s' Hwf; cbn [match_pivot].
  - intros [= <- <-] _. constructor.
  - intros Hp Hc. apply bind_Ok in Hp as ([l1 s1] & Hl & Hp).
    apply bind_Ok in Hp as ([ls s2] & Hls & Hp). injection Hp as <- <-.
    destruct (match_line_growth sd l s s l1 s1 Hl) as (s1' & Hs1' & G).
    rewrite Hl in Hs1'. injection Hs1' as <-.
    pose proof (same_growth_le _ _ _ _ G) as Hle.
    destruct G as (k & _ & _ & Hwf1).
    destruct (match_pivot_count sd pivot s1 ls s2 (Hwf1 Hwf) Hls)
      as [Hks _].
    constructor.
    + apply (match_line_clean sd l s l1 s1 Hl). lia.
    + apply (IH s1 ls s2 (Hwf1 Hwf) Hls). lia.
Qed.

Lemma match_pivot_gate sd (pivot pivot' : list line) s :
  match_pivot sd pivot (mk_rstate no_errors []) = Ok (pivot', s) ->
  has_errors (errs s) = false ->
  Forall2 (resolved_line sd) pivot pivot'.
Proof.
  intros Hp Hhas.
  destruct (match_pivot_count sd pivot (mk_rstate no_errors []) pivot' s
              no_errors_wf Hp) as [_ Hwf].
  apply (match_pivot_clean sd pivot (mk_rstate no_errors []) pivot' s
           no_errors_wf Hp).
  destruct (count_errors (errs s)) eqn:E; [done|].
  assert (has_errors (errs s) = true); [|congruence].
  apply has_errors_count; [done|]. lia.
Qed.

(** The validation gate: when [create_moves_from_pivot] gets past the list
    of errors, every line has the id of the journal under its exact code, a
    truthy account id, a date object, a debit and a credit that are numbers,
    a non-zero integer line number, the id of its partner when it names
    one, and an analytic field, when it has one, whose segments all have a
    sub-code of the directory and a percentage without error. *)
Theorem gate_passed_lines_resolved sd (pivot pivot' : list line) s :
  match_pivot sd pivot (mk_rstate no_errors []) = Ok (pivot', s) ->
  has_errors (errs s) = false ->
  Forall2 (resolved_line sd) pivot pivot'.
Proof. apply match_pivot_gate. Qed.

End Resolved.

Lemma resolver_keeps_fields_witness :
  match match_pivot Examples.sd Examples.pivot_two_pairs Examples.no_state
  with
  | Ok (pivot', _) =>
      Forall2 (fun l l' : line =>
                 forall k, k ∉ resolver_keys -> l' !! k = l !! k)
        Examples.pivot_two_pairs pivot'
  | Raise _ => False
  end.
Proof.
  destruct (match_pivot Examples.sd Examples.pivot_two_pairs
              Examples.no_state) as [[pivot' s']|e] eqn:Hp.
  - exact (resolver_keeps_fields Examples.sd _ pivot' _ s' Hp).
  - apply (f_equal (fun r => match r with Ok _ => true | Raise _ => false end))
      in Hp.
    vm_compute in Hp. discriminate Hp.
Defined.

Lemma gate_passed_lines_resolved_witness :
  match match_pivot Examples.sd Examples.pivot_two_pairs
          (mk_rstate no_errors []) with
  | Ok (pivot', _) =>
      Forall2 (resolved_line Examples.sd) Examples.pivot_two_pairs pivot'
  | Raise _ => False
  end.
Proof.
  destruct (match_pivot Examples.sd Examples.pivot_two_pairs
              (mk_rstate no_errors [])) as [[pivot' s']|e] eqn:Hp.
  - apply (gate_passed_lines_resolved Examples.sd _ pivot' s' Hp).
    change ((fun r : res (list line * rstate) =>
               match r with
               | Ok (_, s) => has_errors (errs s)
               | Raise _ => true
               end) (Ok (pivot', s')) = false).
    rewrite <- Hp. vm_compute. reflexivity.
  - apply (f_equal (fun r => match r with Ok _ => true | Raise _ => false end))
      in Hp.
    vm_compute in Hp. discriminate Hp.
Defined.

(** ** What the splitter does with the lines *)

Section SplitterLines.
Context `{Host}.

Lemma split_step_items self seq st (l : line) st' :
  split_step self seq st l = Ok st' ->
  exists skip,
    is_null_line self l = Ok skip /\
    if (skip : bool) then open_items st' = open_items st
    else exists ml, _prepare_move_line l seq = Ok ml /\
                    open_items st' = open_items st ++ [ml].
Proof.
  intros Hstep. unfold split_step in Hstep.
  apply bind_Ok in Hstep as (skip & Hskip & Hstep). exists skip.
  split; [done|]. destruct skip.
  { apply bind_Ok in Hstep as (v & _ & Hstep). by injection Hstep as <-. }
  apply bind_Ok in Hstep as ([same s] & Hsame & Hstep).
  apply bind_Ok in Hstep as (st1 & Hst1 & Hstep).
  apply bind_Ok in Hstep as (c & Hc & Hstep).
  apply bind_Ok in Hstep as (d & Hd & Hstep).
  injection Hstep as <-. unfold open_items. cbn [moves cur_move].
  destruct (all same).
  - destruct (cur_move st) as [m|] eqn:Hm; [|done].
    apply bind_Ok in Hst1 as (ml & Hml & Hst1). injection Hst1 as <-.
    exists ml. split; [done|]. cbn. by rewrite app_assoc.
  - apply bind_Ok in Hst1 as (moves' & Hmoves' & Hst1).
    apply bind_Ok in Hst1 as (m' & Hm' & Hst1).
    apply bind_Ok in Hst1 as (ml & Hml & Hst1).
    apply bind_Ok in Hst1 as (date & Hdate & Hst1).
    apply bind_Ok in Hst1 as (jid & Hjid & Hst1).
    injection Hst1 as <-. exists ml. split; [done|]. cbn.
    destruct (cur_move st) as [m|].
    + destruct (length (line_ids m) <=? 1)%nat.
      * by apply bind_Ok in Hmoves' as (v & _ & ?).
      * injection Hmoves' as <-.
        rewrite fmap_app, concat_app. cbn. by rewrite app_nil_r.
    + injection Hmoves' as <-. by rewrite app_nil_r.
Qed.

Lemma foldM_split_items self seq pivot st st' :
  foldM (split_step self seq) st pivot = Ok st' ->
  exists mls,
    kept_items self seq pivot = Ok mls /\
    open_items st' = open_items st ++ mls.
Proof.
  revert st. induction pivot as [|l pivot IH]; intros st; cbn [foldM kept_items].
  - intros [= <-]. exists []. by rewrite app_nil_r.
  - intros Hf. apply bind_Ok in Hf as (st1 & Hst1 & Hf).
    destruct (split_step_items _ _ _ _ _ Hst1) as (skip & -> & Hitems).
    destruct (IH _ Hf) as (mls & Hmls & Hopen). cbn.
    destruct skip.
    + exists mls. split; [done|]. by rewrite Hopen, Hitems.
    + destruct Hitems as (ml & -> & Hitems). cbn. rewrite Hmls. cbn.
      exists (ml :: mls). split; [done|].
      by rewrite Hopen, Hitems, <- app_assoc.
Qed.

(** The splitter neither loses, duplicates nor reorders lines: the journal
    items of the emitted moves, taken move after move, are the journal items
    of the lines of the pivot that are not skipped, in the order of the
    pivot. *)
Theorem split_keeps_every_line self seq pivot s emitted :
  extract_moves self seq pivot s = Ok emitted ->
  kept_items self seq pivot = Ok (concat (line_ids <$> emitted)).
Proof.
  intros He. apply extract_moves_Ok in He as (st & Hst & _ & _ & ->).
  destruct (foldM_split_items _ _ _ _ _ Hst) as (mls & -> & Hopen).
  f_equal. unfold open_items in Hopen. cbn in Hopen. subst mls.
  rewrite fmap_app, concat_app.
  destruct (cur_move st); cbn; by rewrite ?app_nil_r.
Qed.

Lemma py_eq_id_refl j : py_eq (id_val j) (id_val j) = true.
Proof. cbn. apply Qeq_bool_iff. reflexivity. Qed.

Lemma py_eq_date_refl d : py_eq (VDate d) (VDate d) = true.
Proof. cbn. by apply bool_decide_eq_true. Qed.

Lemma split_step_mono self seq j d st (l : line) st' :
  split_move_method self = SplitBalanced ->
  l !! "journal_id" = Some (id_val j) -> l !! "date" = Some (VDate d) ->
  split_inv st -> mono_inv j d st ->
  split_step self seq st l = Ok st' -> mono_inv j d st'.
Proof.
  intros Hpol Hj Hd [_ Hcur] [Hbal Hopen] Hstep. unfold split_step in Hstep.
  apply bind_Ok in Hstep as (skip & Hskip & Hstep).
  destruct skip.
  { apply bind_Ok in Hstep as (v & _ & Hstep). by injection Hstep as <-. }
  apply bind_Ok in Hstep as ([same s] & Hsame & Hstep).
  apply bind_Ok in Hstep as (st1 & Hst1 & Hstep).
  apply bind_Ok in Hstep as (c & Hc & Hstep).
  apply bind_Ok in Hstep as (d' & Hd' & Hstep).
  injection Hstep as <-. unfold mono_inv. cbn [moves cur_move cur_journal_id cur_date].
  destruct (same_move_tests_balanced _ _ _ _ _ Hpol Hsame)
    as (-> & jid & Hjid & Hall).
  rewrite Hj in Hjid. injection Hjid as <-.
  destruct (all same) eqn:Hsm.
  - destruct (cur_move st) as [m|] eqn:Hm; [|done].
    apply bind_Ok in Hst1 as (ml & Hml & Hst1). injection Hst1 as <-.
    cbn. split; [done|]. intros _. apply Hopen. eauto.
  - apply bind_Ok in Hst1 as (moves' & Hmoves' & Hst1).
    apply bind_Ok in Hst1 as (m' & Hm' & Hst1).
    apply bind_Ok in Hst1 as (ml & Hml & Hst1).
    apply bind_Ok in Hst1 as (date & Hdate & Hst1).
    apply bind_Ok in Hst1 as (jid & Hjid & Hst1).
    injection Hst1 as <-. cbn.
    unfold getitem in Hdate, Hjid. rewrite Hd in Hdate. rewrite Hj in Hjid.
    injection Hdate as <-. injection Hjid as <-. split; [|done].
    destruct (cur_move st) as [m|] eqn:Hm.
    + destruct (length (line_ids m) <=? 1)%nat.
      { by apply bind_Ok in Hmoves' as (v & _ & ?). }
      injection Hmoves' as <-. apply Forall_app. split; [done|].
      constructor; [|constructor].
      destruct (Hopen ltac:(eauto)) as [Hcj Hcd].
      destruct Hcur as [_ Hmb].
      exists (cur_balance st). split; [done|].
      rewrite Hcj, Hcd, py_eq_id_refl in Hall. unfold get in Hall.
      rewrite Hd in Hall. cbn [default from_option id] in Hall.
      rewrite py_eq_date_refl, orb_true_r, andb_true_r in Hall.
      cbn [andb] in Hall. by destruct (is_zero (cur_balance st)).
    + by injection Hmoves' as <-.
Qed.

(** Under the balanced policy, when all the lines are in one journal at one
    date, every move the splitter emits is balanced: a split then only
    happens on a zero running balance. *)
Theorem balanced_policy_one_journal self seq j d pivot s emitted :
  split_move_method self = SplitBalanced ->
  Forall (fun l : line => l !! "journal_id" = Some (id_val j) /\
                          l !! "date" = Some (VDate d)) pivot ->
  extract_moves self seq pivot s = Ok emitted ->
  Forall (fun m => exists b, move_balance m = Some b /\ is_zero b = true)
    emitted.
Proof.
  intros Hpol Hall He.
  apply extract_moves_Ok in He as (st & Hst & Hinv & Hzero & ->).
  assert (mono_inv j d st) as [Hbal _].
  { clear Hinv Hzero.
    assert (split_inv (split_init s)) as Hi0 by apply split_init_inv.
    assert (mono_inv j d (split_init s)) as Hm0.
    { split; [constructor|]. by intros [? ?]. }
    revert Hi0 Hm0 Hst. generalize (split_init s).
    induction Hall as [|l pivot [Hj Hd] _ IH]; intros st0 Hi0 Hm0; cbn [foldM].
    - by intros [= <-].
    - intros Hf. apply bind_Ok in Hf as (st1 & Hst1 & Hf).
      apply (IH st1); [by eapply split_step_inv| |done].
      by eapply split_step_mono. }
  apply Forall_app. split; [done|].
  destruct Hinv as [_ Hcur]. destruct (cur_move st) as [m|]; [|constructor].
  repeat constructor. exists (cur_balance st). by destruct Hcur.
Qed.

End SplitterLines.

Lemma split_keeps_every_line_witness :
  match extract_moves Examples.wizard_balanced Examples.seq
          Examples.resolved_two_pairs Examples.no_state with
  | Ok emitted =>
      kept_items Examples.wizard_balanced Examples.seq
        Examples.resolved_two_pairs = Ok (concat (line_ids <$> emitted))
  | Raise _ => False
  end.
Proof.
  destruct (extract_moves Examples.wizard_balanced Examples.seq
              Examples.resolved_two_pairs Examples.no_state)
    as [emitted|e] eqn:He.
  - exact (split_keeps_every_line _ _ _ _ emitted He).
  - apply (f_equal (fun r => match r with Ok _ => true | Raise _ => false end))
      in He.
    vm_compute in He. discriminate He.
Defined.

Lemma balanced_policy_one_journal_witness :
  match extract_moves Examples.wizard_balanced Examples.seq
          Examples.resolved_two_pairs Examples.no_state with
  | Ok emitted =>
      Forall (fun m => exists b, move_balance m = Some b /\ is_zero b = true)
        emitted
  | Raise _ => False
  end.
Proof.
  destruct (extract_moves Examples.wizard_balanced Examples.seq
              Examples.resolved_two_pairs Examples.no_state)
    as [emitted|e] eqn:He.
  - apply (balanced_policy_one_journal Examples.wizard_balanced Examples.seq
             1%positive (PyDatetime 2024 1 1 0) Examples.resolved_two_pairs
             Examples.no_state emitted eq_refl); [|exact He].
    repeat constructor.
  - apply (f_equal (fun r => match r with Ok _ => true | Raise _ => false end))
      in He.
    vm_compute in He. discriminate He.
Defined.

(** ** Reconciler *)

Lemma account_keys_length seen lines :
  (length seen <= length (account_keys seen lines))%nat.
Proof.
  revert seen. induction lines as [|ln lines IH]; intros seen; simpl; [lia|].
  destruct (existsb _ seen); [apply IH|].
  etrans; [|apply IH]. rewrite length_app. simpl. lia.
Qed.

Lemma partner_keys_length seen lines :
  (length seen <= length (partner_keys seen lines))%nat.
Proof.
  revert seen. induction lines as [|ln lines IH]; intros seen; simpl; [lia|].
  destruct (existsb _ seen); [apply IH|].
  etrans; [|apply IH]. rewrite length_app. simpl. lia.
Qed.

Lemma account_keys_single a lines :
  (1 <? length (account_keys [a] lines))%nat =
  negb (forallb (fun ln => Pos.eqb (acc_id a) (acc_id (aml_account_id ln)))
          lines).
Proof.
  induction lines as [|ln lines IH]; [done|]. simpl.
  destruct (Pos.eqb (acc_id a) (acc_id (aml_account_id ln))); simpl; [done|].
  apply Nat.ltb_lt.
  pose proof (account_keys_length [a; aml_account_id ln] lines) as Hlen.
  simpl in Hlen. lia.
Qed.

Lemma account_keys_head a lines :
  exists rest, account_keys [a] lines = a :: rest.
Proof.
  assert (forall seen, exists rest, account_keys (a :: seen) lines
                                    = a :: rest) as Hgen.
  { induction lines as [|ln lines IH]; intros seen; simpl; [eauto|].
    destruct (_ || _); [apply IH|]. apply (IH (seen ++ [_])). }
  apply Hgen.
Qed.

Lemma py_eq_partner_key a b :
  py_eq (partner_key a) (partner_key b) = true <->
  aml_partner_id a = aml_partner_id b.
Proof.
  unfold partner_key.
  destruct (aml_partner_id a) as [p|], (aml_partner_id b) as [q|]; cbn.
  - rewrite Qeq_bool_iff. unfold Qeq. cbn. split; [|by intros [= ->]].
    intros Hpq. f_equal. lia.
  - split; [|done]. rewrite Qeq_bool_iff. unfold Qeq. cbn. lia.
  - split; [|done]. rewrite Qeq_bool_iff. unfold Qeq. cbn. lia.
  - done.
Qed.

Lemma partner_keys_single a lines :
  (1 <? length (partner_keys [partner_key a] lines))%nat =
  negb (forallb (fun ln => py_eq (partner_key ln) (partner_key a)) lines).
Proof.
  induction lines as [|ln lines IH]; [done|]. simpl.
  destruct (py_eq (partner_key ln) (partner_key a)); simpl; [done|].
  apply Nat.ltb_lt.
  pose proof (partner_keys_length [partner_key a; partner_key ln] lines)
    as Hlen.
  simpl in Hlen. lia.
Qed.

Lemma partner_keys_head a lines :
  exists rest, partner_keys [partner_key a] lines = partner_key a :: rest.
Proof.
  assert (forall seen, exists rest,
            partner_keys (partner_key a :: seen) lines
            = partner_key a :: rest) as Hgen.
  { induction lines as [|ln lines IH]; intros seen; simpl; [eauto|].
    destruct (_ || _); [apply IH|]. apply (IH (seen ++ [_])). }
  apply Hgen.
Qed.

Lemma join_vals_partner_key sep a rest :
  join_vals sep (partner_key a :: rest) = Raise TypeError.
Proof. unfold join_vals, partner_key. by destruct (aml_partner_id a). Qed.

Section ReconcileFacts.
Context `{Host}.

(** The outcome of one group: it is linked exactly when it is linkable; it
    raises [TypeError] exactly when it passes every test but has more than
    one partner; it is skipped with a warning otherwise. *)
Lemma reconcile_group_cases rec_ref ln lines :
  let group := ln :: lines in
  let one_account :=
    forallb (fun l => Pos.eqb (acc_id (aml_account_id ln))
                        (acc_id (aml_account_id l))) lines in
  let one_partner :=
    forallb (fun l => py_eq (partner_key l) (partner_key ln)) lines in
  reconcile_group rec_ref group =
  if (length group <? 2)%nat then Ok (Skip (WarnOnlyOneMoveLine rec_ref))
  else if negb (is_zero (group_total group)) then
    Ok (Skip (WarnNotBalanced rec_ref (group_total group)))
  else if negb one_account then
    Ok (Skip (WarnDifferentAccounts rec_ref
                (PyStr.join ", " (acc_code <$> account_keys [] group))))
  else if negb (acc_reconcile (aml_account_id ln)) then
    Ok (Skip (WarnNotReconcilable rec_ref
                (acc_display_name (aml_account_id ln))))
  else if negb one_partner then Raise TypeError
  else Ok Link.
Proof.
  intros group one_account one_partner. unfold reconcile_group.
  destruct (length group <? 2)%nat; [done|].
  fold (group_total group).
  destruct (negb (is_zero (group_total group))); [done|].
  subst group. cbn [account_keys partner_keys existsb app].
  rewrite account_keys_single. fold one_account.
  destruct (negb one_account); [done|].
  destruct (account_keys_head (aml_account_id ln) lines) as [rest ->].
  destruct (negb (acc_reconcile (aml_account_id ln))); [done|].
  rewrite partner_keys_single. fold one_partner.
  destruct (negb one_partner); [|done].
  destruct (partner_keys_head ln lines) as [rest' ->].
  by rewrite join_vals_partner_key.
Qed.

Lemma reconcile_group_link rec_ref lines :
  reconcile_group rec_ref lines = Ok Link <-> linkable lines.
Proof.
  destruct lines as [|ln lines].
  { split; [done|]. intros [Hlen _]. simpl in Hlen. lia. }
  rewrite reconcile_group_cases. cbv zeta. unfold linkable.
  destruct (length (ln :: lines) <? 2)%nat eqn:Hlen.
  { split; [done|]. intros [Hl _]. apply Nat.ltb_lt in Hlen. lia. }
  apply Nat.ltb_ge in Hlen.
  destruct (is_zero (group_total (ln :: lines))) eqn:Hz; cbn [negb].
  2:{ split; [done|]. by intros (_ & ? & _). }
  destruct (forallb (fun l => Pos.eqb _ (acc_id (aml_account_id l))) lines)
    eqn:Hacc; cbn [negb].
  2:{ split; [done|]. intros (_ & _ & first & [= <-] & _ & Hall).
      inversion Hall as [|? ? _ Hrest]; subst.
      assert (forallb (fun l => Pos.eqb (acc_id (aml_account_id ln))
                                  (acc_id (aml_account_id l))) lines = true);
        [|congruence].
      apply forallb_forall. intros l Hin.
      rewrite Forall_forall in Hrest.
      destruct (Hrest l) as [-> _]; [by apply list_elem_of_In|].
      apply Pos.eqb_refl. }
  destruct (acc_reconcile (aml_account_id ln)) eqn:Hrec; cbn [negb].
  2:{ split; [done|]. intros (_ & _ & first & [= <-] & ? & _). congruence. }
  destruct (forallb (fun l => py_eq (partner_key l) (partner_key ln)) lines)
    eqn:Hpart; cbn [negb].
  2:{ split; [done|]. intros (_ & _ & first & [= <-] & _ & Hall).
      inversion Hall as [|? ? _ Hrest]; subst.
      assert (forallb (fun l => py_eq (partner_key l) (partner_key ln)) lines
              = true); [|congruence].
      apply forallb_forall. intros l Hin.
      rewrite Forall_forall in Hrest.
      destruct (Hrest l) as [_ Hp]; [by apply list_elem_of_In|].
      by apply py_eq_partner_key. }
  split; [|done]. intros _. split; [done|]. split; [done|].
  exists ln. split; [done|]. split; [done|].
  constructor; [done|]. apply Forall_forall. intros l Hin.
  apply list_elem_of_In in Hin.
  rewrite forallb_forall in Hacc, Hpart. split.
  - symmetry. by apply Pos.eqb_eq, Hacc.
  - by apply py_eq_partner_key, Hpart.
Qed.

(** A group is passed to [reconcile()] exactly when it has at least two
    lines, a zero total, a single account that allows reconciliation and a
    single partner. *)
Theorem link_iff_linkable rec_ref lines :
  reconcile_group rec_ref lines = Ok Link <-> linkable lines.
Proof. apply reconcile_group_link. Qed.

(** Whatever the run does, every set of lines it passes to [reconcile()] is
    linkable. *)
Theorem linked_groups_linkable lines :
  Forall linkable (linked (reconcile_move_lines lines).1).
Proof.
  unfold reconcile_move_lines.
  generalize (fold_left (fun torec ln => torec_add ln torec) lines []).
  assert (forall torec st, Forall linkable (linked st) ->
            Forall linkable (linked (reconcile_groups torec st).1)) as Hgen.
  { induction torec as [|[rec_ref g] torec IH]; intros st Hst; simpl; [done|].
    destruct (reconcile_group rec_ref g) as [[w|]|e] eqn:Hg; simpl.
    - apply IH. exact Hst.
    - apply IH. simpl. apply Forall_app. split; [done|].
      constructor; [|constructor]. by apply (reconcile_group_link rec_ref).
    - done. }
  intros torec. apply Hgen. constructor.
Qed.

End ReconcileFacts.

Lemma torec_add_assoc ln torec tag :
  assoc tag (torec_add ln torec) =
  if String.eqb (aml_import_reconcile ln) tag
  then Some (default [] (assoc tag torec) ++ [ln])
  else assoc tag torec.
Proof.
  induction torec as [|[k g] torec IH]; simpl.
  - by destruct (String.eqb_spec (aml_import_reconcile ln) tag).
  - destruct (String.eqb_spec k (aml_import_reconcile ln)) as [->|Hk]; simpl.
    + by destruct (String.eqb_spec (aml_import_reconcile ln) tag).
    + destruct (String.eqb_spec k tag) as [->|Hkt].
      * by destruct (String.eqb_spec (aml_import_reconcile ln) tag);
          [congruence|].
      * exact IH.
Qed.

Lemma torec_add_keys ln torec k :
  k ∈ (torec_add ln torec).*1 ->
  k ∈ torec.*1 \/ k = aml_import_reconcile ln.
Proof.
  induction torec as [|[k' g] torec IH]; simpl.
  - rewrite list_elem_of_singleton. auto.
  - destruct (String.eqb k' (aml_import_reconcile ln)); simpl; [auto|].
    rewrite !elem_of_cons. intros [->|Hin]; [auto|].
    destruct (IH Hin); auto.
Qed.

Lemma torec_add_NoDup ln torec :
  NoDup torec.*1 -> NoDup (torec_add ln torec).*1.
Proof.
  induction torec as [|[k g] torec IH]; simpl; intros Hnd.
  - apply NoDup_singleton.
  - inversion Hnd as [|? ? Hnot Hrest]; subst.
    destruct (String.eqb_spec k (aml_import_reconcile ln)) as [->|Hk]; simpl.
    + by constructor.
    + constructor; [|by apply IH].
      intros Hin. apply torec_add_keys in Hin as [Hin| ->]; done.
Qed.

Lemma fold_torec_assoc lines torec tag :
  assoc tag (fold_left (fun torec ln => torec_add ln torec) lines torec) =
  match tagged tag lines with
  | [] => assoc tag torec
  | g => Some (default [] (assoc tag torec) ++ g)
  end.
Proof.
  revert torec. induction lines as [|ln lines IH]; intros torec; [done|].
  cbn [fold_left]. rewrite IH, torec_add_assoc. unfold tagged. simpl.
  destruct (String.eqb (aml_import_reconcile ln) tag); simpl.
  - destruct (List.filter _ lines); simpl; [done|].
    by rewrite <- app_assoc.
  - done.
Qed.

(** The grouping by reconcile mark: the dict [torec] has every mark once,
    and under a mark exactly the lines that carry it, in the order of the
    search; a mark no line carries has no group. *)
Theorem groups_by_tag (lines : list aml) :
  let torec := fold_left (fun torec ln => torec_add ln torec) lines [] in
  NoDup torec.*1 /\
  forall tag,
    group_of tag torec =
    match tagged tag lines with
    | [] => None
    | g => Some g
    end.
Proof.
  cbv zeta. split.
  - assert (forall torec, NoDup torec.*1 ->
              NoDup (fold_left (fun torec ln => torec_add ln torec)
                       lines torec).*1) as Hgen.
    { induction lines as [|ln lines IH]; intros torec Hnd; [done|].
      cbn [fold_left]. by apply IH, torec_add_NoDup. }
    apply Hgen. constructor.
  - intros tag. unfold group_of. rewrite fold_torec_assoc. simpl.
    by destruct (tagged tag lines).
Qed.

(** ** The generic CSV and the Ciel Paye parsers *)

Section MoreParserFacts.
Context `{Host}.











End MoreParserFacts.

(** ** The header of a move *)

Lemma prepare_move_no_lines self (l : line) m :
  _prepare_move self l = Ok m -> line_ids m = [].
Proof.
  unfold _prepare_move. intros Hm.
  apply bind_Ok in Hm as (j & _ & Hm). apply bind_Ok in Hm as (d & _ & Hm).
  apply bind_Ok in Hm as (n & _ & Hm). by injection Hm as <-.
Qed.

Section MoveHeader.
Context `{Host}.

Lemma split_step_header self seq pivot st (l : line) st' :
  l ∈ pivot ->
  Forall (header_of_first_line self seq pivot)
    (moves st ++ option_list (cur_move st)) ->
  split_step self seq st l = Ok st' ->
  Forall (header_of_first_line self seq pivot)
    (moves st' ++ option_list (cur_move st')).
Proof.
  intros Hin Hinv Hstep. unfold split_step in Hstep.
  apply bind_Ok in Hstep as (skip & Hskip & Hstep).
  destruct skip.
  { apply bind_Ok in Hstep as (v & _ & Hstep). by injection Hstep as <-. }
  apply bind_Ok in Hstep as ([same s] & Hsame & Hstep).
  apply bind_Ok in Hstep as (st1 & Hst1 & Hstep).
  apply bind_Ok in Hstep as (c & Hc & Hstep).
  apply bind_Ok in Hstep as (d & Hd & Hstep).
  injection Hstep as <-. cbn [moves cur_move].
  destruct (all same).
  - destruct (cur_move st) as [m|] eqn:Hm; [|done].
    apply bind_Ok in Hst1 as (ml & Hml & Hst1). injection Hst1 as <-.
    cbn [moves cur_move option_list] in *.
    apply Forall_app in Hinv as [Hmoves Hcur]. apply Forall_app.
    split; [done|]. inversion Hcur as [|? ? Hhead _]; subst.
    constructor; [|constructor].
    destruct Hhead as (l0 & m0 & ml0 & Hl0 & Hm0 & Hml0 & Hfirst & Hset).
    exists l0, m0, ml0. split; [done|]. split; [done|]. split; [done|].
    split; [|done]. cbn. by destruct (line_ids m).
  - apply bind_Ok in Hst1 as (moves' & Hmoves' & Hst1).
    apply bind_Ok in Hst1 as (m' & Hm' & Hst1).
    apply bind_Ok in Hst1 as (ml & Hml & Hst1).
    apply bind_Ok in Hst1 as (date & Hdate & Hst1).
    apply bind_Ok in Hst1 as (jid & Hjid & Hst1).
    injection Hst1 as <-. cbn [moves cur_move option_list].
    apply Forall_app. split.
    + destruct (cur_move st) as [m|].
      * destruct (length (line_ids m) <=? 1)%nat.
        { by apply bind_Ok in Hmoves' as (v & _ & ?). }
        by injection Hmoves' as <-.
      * injection Hmoves' as <-. cbn in Hinv. by rewrite app_nil_r in Hinv.
    + constructor; [|constructor].
      exists l, m', ml. split; [done|]. split; [done|]. split; [done|].
      split; [done|]. pose proof (prepare_move_no_lines _ _ _ Hm') as Hnl.
      destruct m'. cbn in *. by subst.
Qed.

Lemma extract_moves_header self seq pivot s emitted :
  extract_moves self seq pivot s = Ok emitted ->
  Forall (header_of_first_line self seq pivot) emitted.
Proof.
  intros He. apply extract_moves_Ok in He as (st & Hst & _ & _ & ->).
  assert (forall done todo st0 st1,
            pivot = done ++ todo ->
            Forall (header_of_first_line self seq pivot)
              (moves st0 ++ option_list (cur_move st0)) ->
            foldM (split_step self seq) st0 todo = Ok st1 ->
            Forall (header_of_first_line self seq pivot)
              (moves st1 ++ option_list (cur_move st1))) as Hgen.
  { intros done todo. revert done.
    induction todo as [|l todo IH]; intros done st0 st1 Hp Hinv; cbn [foldM].
    - by intros [= <-].
    - intros Hf. apply bind_Ok in Hf as (st2 & Hst2 & Hf).
      apply (IH (done ++ [l]) st2 st1); [by rewrite <- app_assoc| |done].
      apply (split_step_header self seq pivot st0 l st2); [|done|done].
      rewrite Hp. apply elem_of_app. right. apply elem_of_cons. by left. }
  apply (Hgen [] pivot (split_init s) st); [done|constructor|done].
Qed.

(** The journal, reference, date and name of every emitted move are those
    of the line that opened it, whose journal item is the first of the
    move. *)
Theorem move_header_from_first_line self seq pivot s emitted :
  extract_moves self seq pivot s = Ok emitted ->
  Forall (header_of_first_line self seq pivot) emitted.
Proof. apply extract_moves_header. Qed.

End MoveHeader.

Lemma move_header_from_first_line_witness :
  match extract_moves Examples.wizard_balanced Examples.seq
          Examples.resolved_two_pairs Examples.no_state with
  | Ok emitted =>
      Forall (header_of_first_line Examples.wizard_balanced Examples.seq
                Examples.resolved_two_pairs) emitted
  | Raise _ => False
  end.
Proof.
  destruct (extract_moves Examples.wizard_balanced Examples.seq
              Examples.resolved_two_pairs Examples.no_state)
    as [emitted|e] eqn:He.
  - exact (move_header_from_first_line _ _ _ _ emitted He).
  - apply (f_equal (fun r => match r with Ok _ => true | Raise _ => false end))
      in He.
    vm_compute in He. discriminate He.
Defined.

(** ** The parsers on sample files *)




(** ** The forced fields, from the wizard to the moves *)

Lemma mapM_Ok_lookup {A B} (f : A -> res B) (xs : list A) (ys : list B) i y :
  mapM f xs = Ok ys -> ys !! i = Some y ->
  exists x, xs !! i = Some x /\ f x = Ok y.
Proof.
  revert ys i. induction xs as [|x xs IH]; intros ys i; cbn [mapM].
  - by intros [= <-].
  - intros Hm. apply bind_Ok in Hm as (y0 & Hy0 & Hm).
    apply bind_Ok in Hm as (ys0 & Hys0 & Hm). injection Hm as <-.
    destruct i as [|i]; cbn.
    + intros [= <-]. by exists x.
    + intros Hy. by apply (IH ys0 i).
Qed.

Section ForcedFields.
Context `{Host}.

Lemma match_line_forced sd (l : line) s l1 s1 :
  match_line sd l s = Ok (l1, s1) ->
  l1 !! "ref" = l !! "ref" /\
  (forall d, l !! "date" = Some (VDate d) -> l1 !! "date" = Some (VDate d)).
Proof.
  unfold match_line. intros Hl.
  apply bind_Ok in Hl as (n & Hn & Hl).
  apply bind_Ok in Hl as ([l1' s1'] & E1 & Hl).
  apply bind_Ok in Hl as ([l2 s2'] & E2 & Hl).
  apply bind_Ok in Hl as ([l3 s3] & E3 & Hl).
  apply bind_Ok in Hl as ([l4 s4] & E4 & Hl).
  assert (forall k, k = "ref" \/ k = "date" -> l4 !! k = l !! k) as K4.
  { intros k Hk.
    rewrite (match_journal_keeps _ _ _ _ _ _ k E4) by (by destruct Hk as [->| ->]).
    rewrite (match_analytic_keeps _ _ _ _ _ _ k E3) by (by destruct Hk as [->| ->]).
    rewrite (match_partner_keeps _ _ _ _ _ _ k E2) by (by destruct Hk as [->| ->]).
    rewrite (match_account_keeps _ _ _ _ _ _ k E1) by (by destruct Hk as [->| ->]).
    done. }
  pose proof (check_date_keeps n l4 s4 "ref" ltac:(done)) as K5.
  assert (forall d, l4 !! "date" = Some (VDate d) ->
                    (check_date n l4 s4).1 !! "date" = Some (VDate d)) as K6.
  { intros d Hd. unfold check_date, get. by rewrite Hd. }
  destruct (check_date n l4 s4) as [l5 s5]. cbn [fst] in *.
  apply bind_Ok in Hl as (s6 & E6 & Hl).
  apply bind_Ok in Hl as (s7 & E7 & Hl). injection Hl as <- <-.
  split.
  - rewrite K5. apply K4. by left.
  - intros d Hd. apply K6. rewrite K4; [done|by right].
Qed.

Lemma match_pivot_forced sd (pivot pivot' : list line) s s' :
  match_pivot sd pivot s = Ok (pivot', s') ->
  Forall2 (fun l l' : line =>
             l' !! "ref" = l !! "ref" /\
             (forall d, l !! "date" = Some (VDate d) ->
                        l' !! "date" = Some (VDate d))) pivot pivot'.
Proof.
  revert s pivot' s'.
  induction pivot as [|l pivot IH]; intros s pivot' s'; cbn [match_pivot].
  - intros [= <- <-]. constructor.
  - intros Hp. apply bind_Ok in Hp as ([l1 s1] & Hl & Hp).
    apply bind_Ok in Hp as ([ls s2] & Hls & Hp). injection Hp as <- <-.
    constructor; [by eapply match_line_forced|by eapply IH].
Qed.

(** The forced journal, reference and date of the wizard reach the moves:
    every move the import creates is in the journal whose code is the
    forced one, and carries the forced reference and the forced date. *)
Theorem forced_fields_on_every_move self sd seq pivot emitted :
  run_import_moves self sd seq pivot = Ok emitted ->
  Forall (fun m =>
    (forall code, force_journal_id self = Some code -> code <> "" ->
       exists journal_id,
         assoc code (sd_journal sd) = Some journal_id /\
         mv_journal_id m = id_val journal_id) /\
    (forall ref, force_move_ref self = Some ref -> ref <> "" ->
       mv_ref m = VStr ref) /\
    (forall y mo d, force_move_date self = Some (y, mo, d) ->
       mv_date m = VDate (PyDate y mo d))) emitted.
Proof.
  unfold run_import_moves. intros Hrun.
  apply bind_Ok in Hrun as (pivot1 & Hnorm & Hrun).
  unfold create_moves_from_pivot in Hrun.
  apply bind_Ok in Hrun as ([pivot2 s] & Hmatch & Hrun).
  destruct (has_errors (errs s)) eqn:Hhas; [done|].
  pose proof (match_pivot_gate sd pivot1 pivot2 s Hmatch Hhas) as Hres.
  pose proof (match_pivot_forced _ _ _ _ _ Hmatch) as Hkeep.
  pose proof (extract_moves_header _ _ _ _ _ Hrun) as Hhead.
  apply Forall_impl with (1 := Hhead).
  intros m (l2 & m0 & ml & Hin & Hm0 & _ & _ & Hset).
  apply list_elem_of_lookup in Hin as [i Hi].
  destruct (Forall2_lookup_r _ _ _ _ _ Hres Hi) as (l1 & Hi1 & Hr).
  destruct (Forall2_lookup_r _ _ _ _ _ Hkeep Hi) as (l1' & Hi1' & Href & Hdate).
  rewrite Hi1 in Hi1'. injection Hi1' as <-.
  unfold normalizer, update_pivot in Hnorm.
  destruct (mapM_Ok_lookup _ _ _ _ _ Hnorm Hi1) as (l0 & _ & Hup).
  pose proof (update_line_lookup self l0 l1) as Hlook.
  unfold _prepare_move in Hm0.
  apply bind_Ok in Hm0 as (j & Hj & Hm0). apply bind_Ok in Hm0 as (dt & Hdt & Hm0).
  apply bind_Ok in Hm0 as (nm & _ & Hm0).
  assert (mv_journal_id m = j /\ mv_ref m = get l2 "ref" /\ mv_date m = dt)
    as (Hmj & Hmr & Hmd).
  { injection Hm0 as <-. destruct m. cbn in Hset. cbn. by injection Hset. }
  unfold getitem in Hj, Hdt.
  destruct (l2 !! "journal_id") as [j'|] eqn:Ej; [|done]. injection Hj as ->.
  destruct (l2 !! "date") as [dt'|] eqn:Ed; [|done]. injection Hdt as ->.
  split; [|split].
  - intros code Hcode Hne.
    destruct Hr as ((code' & jid & Hjc & Hassoc & Hjid) & _).
    rewrite (Hlook _ Hup) in Hjc. unfold updated_field in Hjc.
    rewrite forced_value_journal, Hcode, (truthy_str_ne _ Hne) in Hjc.
    rewrite (truthy_str_ne _ Hne) in Hjc. injection Hjc as <-.
    exists jid. split; [done|]. rewrite Hmj. congruence.
  - intros ref Hr' Hne. rewrite Hmr. unfold get. rewrite Href, (Hlook _ Hup).
    unfold updated_field. rewrite forced_value_ref, Hr'. cbn [char_val].
    by rewrite (truthy_str_ne _ Hne).
  - intros y mo d Hforce. rewrite Hmd.
    assert (l1 !! "date" = Some (VDate (PyDate y mo d))) as Hd1.
    { rewrite (Hlook _ Hup). unfold updated_field.
      by rewrite forced_value_date, Hforce. }
    pose proof (Hdate _ Hd1) as Hd2. congruence.
Qed.

End ForcedFields.

Lemma forced_fields_on_every_move_witness :
  match run_import_moves Examples.wizard_forced Examples.sd Examples.seq
          Examples.pivot_two_pairs with
  | Ok emitted =>
      emitted <> [] /\
      Forall (fun m => mv_journal_id m = id_val 2 /\
                       mv_date m = VDate (PyDate 2024 1 31)) emitted
  | Raise _ => False
  end.
Proof.
  destruct (run_import_moves Examples.wizard_forced Examples.sd Examples.seq
              Examples.pivot_two_pairs) as [emitted|e] eqn:He.
  - split.
    + intros ->. vm_compute in He. discriminate He.
    + apply Forall_impl
        with (1 := forced_fields_on_every_move _ _ _ _ emitted He).
      intros m (Hj & _ & Hd). split.
      * destruct (Hj "BQ" eq_refl ltac:(done)) as (jid & Hassoc & ->).
        vm_compute in Hassoc. by injection Hassoc as <-.
      * by apply Hd.
  - apply (f_equal (fun r => match r with Ok _ => true | Raise _ => false end))
      in He.
    vm_compute in He. discriminate He.
Defined.

(** ** A blank account cell *)

Section BlankAccount.
Context `{Host}.

(** An account cell that is empty or blank is not reported in the list of
    errors: when the company has an account, the import of a file whose
    first record has such a cell stops on a [TypeError]. *)
Theorem blank_account_raises_type_error self sd seq (l : line) pivot pivot1
    code n :
  l !! "account" = Some (VStr code) ->
  PyStr.strip code = "" ->
  l !! "account_id" = None ->
  l !! "line" = Some (VInt n) -> n <> 0 ->
  sd_account sd <> [] ->
  normalizer self (l :: pivot) = Ok pivot1 ->
  run_import_moves self sd seq (l :: pivot) = Raise TypeError.
Proof.
  intros Ha Hblank Hid Hline Hn Hne Hnorm.
  unfold run_import_moves. rewrite Hnorm. cbn [mbind res_bind].
  unfold normalizer, update_pivot, clean_strip_pivot in Hnorm.
  rewrite fmap_cons in Hnorm. cbn [mapM] in Hnorm.
  apply bind_Ok in Hnorm as (l1 & Hl1 & Hnorm).
  apply bind_Ok in Hnorm as (ls & _ & Hnorm). injection Hnorm as <-.
  pose proof (update_line_lookup self _ l1 "account" Hl1) as Ha1.
  pose proof (update_line_lookup self _ l1 "account_id" Hl1) as Hid1.
  pose proof (update_line_lookup self _ l1 "line" Hl1) as Hline1.
  rewrite lookup_fmap, Ha in Ha1. rewrite lookup_fmap, Hid in Hid1.
  rewrite lookup_fmap, Hline in Hline1.
  assert (l1 !! "account" = Some (VBool false)) as Ha2.
  { rewrite Ha1. change (Some (clean_value (VStr code)) = Some (VBool false)).
    unfold clean_value. rewrite Hblank. cbn [truthy].
    by destruct (negb (String.eqb code "")). }
  assert (l1 !! "account_id" = None) as Hid2 by (by rewrite Hid1).
  assert (check_line_number l1 = Ok n) as Hcl.
  { unfold check_line_number, get. rewrite Hline1.
    change (updated_field self "line" (clean_value <$> Some (VInt n)))
      with (Some (clean_value (VInt n))).
    unfold clean_value. cbn [truthy default]. destruct (Z.eqb_spec n 0); [done|].
    cbn [negb id truthy as_int]. by destruct (Z.eqb_spec n 0). }
  unfold create_moves_from_pivot. cbn [match_pivot]. unfold match_line.
  rewrite Hcl. cbn [mbind res_bind].
  by rewrite (match_account_blank sd n l1 _ Ha2 Hid2 Hne).
Qed.

End BlankAccount.

Lemma blank_account_raises_type_error_witness :
  run_import_moves Examples.wizard_balanced Examples.sd Examples.seq
    [Examples.mk_line 2 "VT" "   " 100 0] = Raise TypeError.
Proof.
  destruct (normalizer Examples.wizard_balanced
              [Examples.mk_line 2 "VT" "   " 100 0]) as [pivot1|e] eqn:Hn.
  - apply (blank_account_raises_type_error Examples.wizard_balanced
             Examples.sd Examples.seq (Examples.mk_line 2 "VT" "   " 100 0)
             [] pivot1 "   " 2); try done.
  - apply (f_equal (fun r => match r with Ok _ => true | Raise _ => false end))
      in Hn.
    vm_compute in Hn. discriminate Hn.
Defined.
